(** * sra-fetch-metadata: a shallow embedding of [sra_fetch_metadata.py]

    The script queries the NCBI e-utilities for the experiments of a
    sequencing project, turns the XML fragments embedded in every summary
    page into nested Python containers, keeps the ILLUMINA experiments and
    prints one comma-joined line per run.

    The embedding follows the source function by function:
    - [XmlListConfig], [XmlDictConfig], [parse_xml]  (lines 14-84),
    - [print_experiment_csv]                          (lines 87-112),
    - [main] with its page loop                       (lines 115-197).

    Library code the script calls ([requests.get], [response.json],
    [ElementTree.fromstring]) is taken as a parameter of the development. *)

From Stdlib Require Import List String Ascii Bool ZArith Lia DecimalString.
Import ListNotations.

Local Open Scope string_scope.
Local Open Scope list_scope.

Set Implicit Arguments.
Set Warnings "-register-all".

(** ** Python values *)

Module Py.

(** The objects the script manipulates once XML has been normalised:
  [None], [str], [dict] (with [str] keys, in insertion order) and [list]. *)
Inductive value : Type :=
| VNone : value
| VStr (s : string) : value
| VDict (d : list (string * value)) : value
| VList (l : list value) : value.

Definition dict : Type := list (string * value).

(** Exceptions that escape to the top level and kill the process. *)
Inductive exn : Type :=
| KeyError
| TypeError
| AttributeError
| ParseError
| JSONDecodeError.

Inductive result (A : Type) : Type :=
| Ok (a : A)
| Raise (e : exn).

Arguments Ok {A} a.
Arguments Raise {A} e.

Definition bind {A B} (r : result A) (k : A -> result B) : result B :=
match r with
| Ok a => k a
| Raise e => Raise e
end.

Notation "x <- c ;; k" := (bind c (fun x => k))
(at level 61, c at next level, right associativity).

(** [d[k] = v]: an existing key keeps its position, a new key goes last. *)
Fixpoint dict_set (d : dict) (k : string) (v : value) : dict :=
match d with
| [] => [(k, v)]
| (k', v') :: d' =>
    if String.eqb k' k then (k', v) :: d' else (k', v') :: dict_set d' k v
end.

(** [d.update(other)]: the pairs of [other] are stored one after the other. *)
Definition dict_update (d other : dict) : dict :=
fold_left (fun acc kv => dict_set acc (fst kv) (snd kv)) other d.

Fixpoint dict_get (d : dict) (k : string) : option value :=
match d with
| [] => None
| (k', v) :: d' => if String.eqb k' k then Some v else dict_get d' k
end.

Definition dict_keys (d : dict) : list string := map fst d.

(** [k in d.keys()] *)
Definition key_in (k : string) (ks : list string) : bool :=
existsb (String.eqb k) ks.

(** [o[k]] for a string subscript [k]: only a dict accepts it. *)
Definition getitem (o : value) (k : string) : result value :=
match o with
| VDict d =>
    match dict_get d k with
    | Some v => Ok v
    | None => Raise KeyError
    end
| _ => Raise TypeError
end.

(** [o.keys()] *)
Definition keys (o : value) : result (list string) :=
match o with
| VDict d => Ok (dict_keys d)
| _ => Raise AttributeError
end.

(** What [for x in o] visits. *)
Definition iterate (o : value) : result (list value) :=
match o with
| VList l => Ok l
| VDict d => Ok (map VStr (dict_keys d))
| VStr s => Ok (map (fun c => VStr (String c EmptyString)) (list_ascii_of_string s))
| VNone => Raise TypeError
end.

(** [sep.join(items)]: every item has to be a [str]. *)
Fixpoint strings_of (items : list value) : result (list string) :=
match items with
| [] => Ok []
| VStr s :: rest => ss <- strings_of rest ;; Ok (s :: ss)
| _ :: _ => Raise TypeError
end.

Definition join (sep : string) (items : list value) : result string :=
ss <- strings_of items ;; Ok (String.concat sep ss).

End Py.

Import Py.

(** ** ElementTree elements *)

(** An [Element] as the XML parser hands it over: tag, attributes in document
    order ([element.items()]), the text before the first child
    ([element.text], [None] when there is none) and the child elements. *)
Inductive Element : Type :=
| Elem (tag : string) (attrib : list (string * string))
       (text : option string) (children : list Element).

Definition tag (e : Element) : string :=
  match e with Elem t _ _ _ => t end.

Definition items (e : Element) : list (string * string) :=
  match e with Elem _ a _ _ => a end.

Definition text (e : Element) : option string :=
  match e with Elem _ _ t _ => t end.

Definition children (e : Element) : list Element :=
  match e with Elem _ _ _ c => c end.

(** [dict(element.items())] *)
Definition dict_of_items (its : list (string * string)) : dict :=
  dict_update [] (map (fun kv => (fst kv, VStr (snd kv))) its).

(** [element.text] as a Python value. *)
Definition text_value (t : option string) : value :=
  match t with
  | Some s => VStr s
  | None => VNone
  end.

(** Truth value of a list ([if element.items():]). *)
Definition nonempty {A} (l : list A) : bool :=
  match l with [] => false | _ :: _ => true end.

(** [len(element) == 1 or element[0].tag != element[1].tag], for an element
    that has at least one child. *)
Definition dict_shaped (cs : list Element) : bool :=
  match cs with
  | c0 :: c1 :: _ => negb (String.eqb (tag c0) (tag c1))
  | _ => true
  end.

(** ** The normaliser (lines 14-84) *)

Section Normalizer.

Variable XmlDictConfig : Element -> dict.
Variable XmlListConfig : Element -> list value.

(** One turn of the loop of [XmlListConfig.__init__]. [element is not None]
    holds for every child, so the [elif element.text] arm is never taken. *)
Definition list_step (self : list value) (element : Element) : list value :=
  match children element with
  | [] => self ++ [VDict (XmlDictConfig element)]
  | cs =>
      if dict_shaped cs
      then self ++ [VDict (XmlDictConfig element)]
      else self ++ [VList (XmlListConfig element)]
  end.

(** One turn of the loop of [XmlDictConfig.__init__]. [if element:] is the
    ElementTree truth value: the element has children. *)
Definition dict_step (self : dict) (element : Element) : dict :=
  if nonempty (children element) then
    let aDict :=
      if dict_shaped (children element)
      then XmlDictConfig element
      else
        match children element with
        | c0 :: _ => [(tag c0, VList (XmlListConfig element))]
        | [] => []
        end in
    let aDict :=
      if nonempty (items element)
      then dict_update aDict (dict_of_items (items element))
      else aDict in
    dict_set self (tag element) (VDict aDict)
  else if nonempty (items element) then
    dict_set self (tag element) (VDict (dict_of_items (items element)))
  else
    dict_set self (tag element) (text_value (text element)).

End Normalizer.

Fixpoint XmlDictConfig (parent_element : Element) : dict :=
  match parent_element with
  | Elem _ attrib _ cs =>
      let self :=
        if nonempty attrib then dict_update [] (dict_of_items attrib) else [] in
      fold_left (dict_step XmlDictConfig XmlListConfig) cs self
  end
with XmlListConfig (aList : Element) : list value :=
  match aList with
  | Elem _ _ _ cs =>
      fold_left (list_step XmlDictConfig XmlListConfig) cs []
  end.

(** ** Strings *)

(** ASCII white space, as [str.strip()] and [str.isspace()] see it (the
    Unicode spaces outside ASCII are not modelled). *)
Definition is_space (c : ascii) : bool :=
  let n := nat_of_ascii c in
  ((9 <=? n) && (n <=? 13) || (28 <=? n) && (n <=? 32))%nat.

Fixpoint lstrip (s : string) : string :=
  match s with
  | String c s' => if is_space c then lstrip s' else s
  | EmptyString => EmptyString
  end.

Definition rev_string (s : string) : string :=
  string_of_list_ascii (rev (list_ascii_of_string s)).

Definition rstrip (s : string) : string := rev_string (lstrip (rev_string s)).

(** [s.strip()] *)
Definition strip (s : string) : string := rstrip (lstrip s).

Definition dquote : ascii := "034"%char.

(** The pattern of line 170, [\"error\":], which as a regular expression
    has no special character: the eight characters ["error":]. *)
Definition error_marker : string :=
  String dquote ("error" ++ String dquote ":").

(** [re.search(pat, s)] for a pattern of literal characters: [pat] occurs
    somewhere in [s]. *)
Fixpoint re_search (pat s : string) : bool :=
  if String.prefix pat s then true
  else
    match s with
    | EmptyString => false
    | String _ s' => re_search pat s'
    end.

(** ** JSON documents, as [response.json()] returns them *)

Inductive json : Type :=
| JNull : json
| JBool (b : bool) : json
| JNum (n : Z) : json
| JStr (s : string) : json
| JArr (l : list json) : json
| JObj (o : list (string * json)) : json.

Fixpoint jobj_get (o : list (string * json)) (k : string) : option json :=
  match o with
  | [] => None
  | (k', v) :: o' => if String.eqb k' k then Some v else jobj_get o' k
  end.

(** [o[k]] with a string literal [k]. *)
Definition jgetitem (o : json) (k : string) : result json :=
  match o with
  | JObj d =>
      match jobj_get d k with
      | Some v => Ok v
      | None => Raise KeyError
      end
  | _ => Raise TypeError
  end.

(** [o[uid]] where [uid] is itself a JSON value taken from the [uids] list. *)
Definition jsubscript (o uid : json) : result json :=
  match o with
  | JObj d =>
      match uid with
      | JStr k =>
          match jobj_get d k with
          | Some v => Ok v
          | None => Raise KeyError
          end
      | JArr _ | JObj _ => Raise TypeError
      | _ => Raise KeyError
      end
  | _ => Raise TypeError
  end.

(** [for uid in o] *)
Definition jiterate (o : json) : result (list json) :=
  match o with
  | JArr l => Ok l
  | JObj d => Ok (map (fun kv => JStr (fst kv)) d)
  | JStr s => Ok (map (fun c => JStr (String c EmptyString)) (list_ascii_of_string s))
  | _ => Raise TypeError
  end.

(** [o.strip()] *)
Definition jstrip (o : json) : result string :=
  match o with
  | JStr s => Ok (strip s)
  | _ => Raise AttributeError
  end.

(** Truth value of an object ([if project_query_webenv:]). *)
Definition truthy (o : json) : bool :=
  match o with
  | JNull => false
  | JBool b => b
  | JNum n => negb (n =? 0)%Z
  | JStr s => negb (String.eqb s "")
  | JArr l => nonempty l
  | JObj d => nonempty d
  end.

(** ** The flattener (lines 87-112) *)

(** The list handed to [','.join] for one run: nineteen subscript
    expressions, evaluated from first to last. *)
Definition row_values (e run : value) : result (list value) :=
  f1 <- getitem run "acc" ;;
  f2 <- getitem e "Bioproject" ;;
  f3 <- (x <- getitem e "Experiment" ;; getitem x "acc") ;;
  f4 <- (x <- getitem e "Experiment" ;; getitem x "name") ;;
  f5 <- (x <- getitem e "Organism" ;; getitem x "ScientificName") ;;
  f6 <- (x <- getitem e "Instrument" ;; getitem x "ILLUMINA") ;;
  f7 <- (x <- getitem e "Submitter" ;; getitem x "center_name") ;;
  f8 <- (x <- getitem e "Study" ;; getitem x "acc") ;;
  f9 <- (x <- getitem e "Study" ;; getitem x "name") ;;
  f10 <- (x <- getitem e "Sample" ;; getitem x "acc") ;;
  f11 <- (x <- getitem e "Sample" ;; getitem x "name") ;;
  f12 <- (x <- getitem e "Summary" ;; y <- getitem x "Statistics" ;;
          getitem y "total_size") ;;
  f13 <- (x <- getitem e "Summary" ;; y <- getitem x "Statistics" ;;
          getitem y "total_runs") ;;
  f14 <- (x <- getitem e "Summary" ;; y <- getitem x "Statistics" ;;
          getitem y "total_spots") ;;
  f15 <- (x <- getitem e "Summary" ;; y <- getitem x "Statistics" ;;
          getitem y "total_bases") ;;
  f16 <- (x <- getitem e "Library_descriptor" ;; getitem x "LIBRARY_NAME") ;;
  f17 <- (x <- getitem e "Library_descriptor" ;; getitem x "LIBRARY_STRATEGY") ;;
  f18 <- (x <- getitem e "Library_descriptor" ;; getitem x "LIBRARY_SOURCE") ;;
  f19 <- (x <- getitem e "Library_descriptor" ;; getitem x "LIBRARY_SELECTION") ;;
  Ok [f1; f2; f3; f4; f5; f6; f7; f8; f9; f10; f11; f12; f13; f14; f15; f16;
      f17; f18; f19].

(** The fields of one printed row. *)
Definition row_fields (e run : value) : result (list string) :=
  vs <- row_values e run ;; strings_of vs.

(** The text of one printed row. *)
Definition row_line (e run : value) : result string :=
  vs <- row_values e run ;; join "," vs.

(** ** The process: standard output, requests sent, ways to stop *)

(** Parameters of one [esummary] request (lines 160-167). *)
Record SummaryParams : Type := mkParams {
  db : string;
  retmode : string;
  query_key : string;
  WebEnv : json;
  retstart : Z;
  retmax : Z
}.

(** What [requests.get] returns, as far as the script looks at it: [body]
    is [response.text] (the name [text] is taken by the elements). *)
Record Response : Type := mkResponse {
  status_code : Z;
  body : string
}.

(** What [print] has written. *)
Inductive output : Type :=
| Line (s : string)
| DumpParams (p : SummaryParams)
| DumpData (d : json).

Inductive stop : Type :=
| Exit (code : Z)
| Uncaught (e : exn).

(** The variables of [main] that change while the pages are processed,
    together with the two observable traces. *)
Record state : Type := mkState {
  biosample_data : json;
  experiments : list value;
  stdout : list output;
  requests : list SummaryParams
}.

Inductive outcome (A : Type) : Type :=
| Next (a : A)
| Stop (s : stop).

Arguments Next {A} a.
Arguments Stop {A} s.

Definition M (A : Type) : Type := state -> state * outcome A.

Definition ret {A} (a : A) : M A := fun st => (st, Next a).

Definition mbind {A B} (m : M A) (k : A -> M B) : M B :=
  fun st =>
    match m st with
    | (st', Next a) => k a st'
    | (st', Stop s) => (st', Stop s)
    end.

Notation "x <-- c ;;; k" := (mbind c (fun x => k))
  (at level 61, c at next level, right associativity).
Notation "c ;;; k" := (mbind c (fun _ => k))
  (at level 61, right associativity).

(** An exception nobody catches ends the process. *)
Definition lift {A} (r : result A) : M A :=
  fun st =>
    match r with
    | Ok a => (st, Next a)
    | Raise e => (st, Stop (Uncaught e))
    end.

Definition exit {A} (code : Z) : M A := fun st => (st, Stop (Exit code)).

Definition print (o : output) : M unit :=
  fun st =>
    (mkState (biosample_data st) (experiments st) (stdout st ++ [o])
             (requests st), Next tt).

Definition send (p : SummaryParams) : M unit :=
  fun st =>
    (mkState (biosample_data st) (experiments st) (stdout st)
             (requests st ++ [p]), Next tt).

Definition set_biosample_data (d : json) : M unit :=
  fun st => (mkState d (experiments st) (stdout st) (requests st), Next tt).

Definition get_biosample_data : M json :=
  fun st => (st, Next (biosample_data st)).

Definition append_experiment (e : value) : M unit :=
  fun st =>
    (mkState (biosample_data st) (experiments st ++ [e]) (stdout st)
             (requests st), Next tt).

Definition get_experiments : M (list value) :=
  fun st => (st, Next (experiments st)).

(** [for x in l: body(x)] *)
Fixpoint for_each {A} (body : A -> M unit) (l : list A) : M unit :=
  match l with
  | [] => ret tt
  | x :: l' => body x ;;; for_each body l'
  end.

(** [range(start, stop, step)] for a positive [step]. *)
Definition range (start stop step : Z) : list Z :=
  map (fun i => (start + Z.of_nat i * step)%Z)
      (seq 0 (Z.to_nat ((stop - start + step - 1) / step))).

(** [print_experiment_csv(e)] *)
Definition print_experiment_csv (e : value) : M unit :=
  runs <-- lift (rs <- getitem e "runs" ;; iterate rs) ;;;
  for_each (fun run => line <-- lift (row_line e run) ;;; print (Line line)) runs.

(** [parsed_experiment['runs'].append(x)] *)
Definition append_runs (parsed_experiment : dict) (x : value) : result dict :=
  l <- getitem (VDict parsed_experiment) "runs" ;;
  match l with
  | VList l => Ok (dict_set parsed_experiment "runs" (VList (l ++ [x])))
  | _ => Raise AttributeError
  end.

(** [output_fields] (lines 135-154): eighteen literals, the sixth of which
    holds a comma. *)
Definition output_fields : list string :=
  [ "run_accession";
    "bioproject_accession";
    "experiment_accession";
    "experiment_title";
    "organism_name";
    "instrument,submitter";
    "study_accession";
    "study_title";
    "sample_accession";
    "sample_title";
    "total_size_mb";
    "total_runs";
    "total_spots";
    "total_bases";
    "library_name";
    "library_strategy";
    "library_source";
    "library_selection" ].

Definition header : string := String.concat "," output_fields.

(** ** [parse_xml] and [main] (lines 80-84 and 115-197) *)

Section Main.

(** [ElementTree.fromstring]: [None] stands for its [ParseError]. *)
Variable fromstring : string -> option Element.

(** [response.json()]: [None] stands for its [JSONDecodeError]. *)
Variable json_loads : string -> option json.

(** [requests.get] on the two end points, by the parameters sent. *)
Variable esearch : string -> Response.
Variable esummary : SummaryParams -> Response.

Definition parse_xml (xml_string : string) : result dict :=
  match fromstring xml_string with
  | Some root => Ok (XmlDictConfig root)
  | None => Raise ParseError
  end.

(** Lines 185-191: the record built for one [uid]. *)
Definition assemble (data uid : json) : result dict :=
  expxml <- (r <- jgetitem data "result" ;; x <- jsubscript r uid ;;
             s <- jgetitem x "expxml" ;; jstrip s) ;;
  parsed_experiment <- parse_xml ("<root>" ++ expxml ++ "</root>") ;;
  runs <- (r <- jgetitem data "result" ;; x <- jsubscript r uid ;;
           s <- jgetitem x "runs" ;; jstrip s) ;;
  parsed_runs <- parse_xml ("<root>" ++ runs ++ "</root>") ;;
  let parsed_experiment := dict_set parsed_experiment "runs" (VList []) in
  run <- getitem (VDict parsed_runs) "Run" ;;
  append_runs parsed_experiment run.

(** Line 192: ["ILLUMINA" in parsed_experiment['Instrument'].keys()] *)
Definition platform_filter (parsed_experiment : dict) : result bool :=
  i <- getitem (VDict parsed_experiment) "Instrument" ;;
  ks <- keys i ;;
  Ok (key_in "ILLUMINA" ks).

(** Lines 185-193: one turn of the loop over the uids of a page. *)
Definition process_uid (data uid : json) : M unit :=
  parsed_experiment <-- lift (assemble data uid) ;;;
  keep <-- lift (platform_filter parsed_experiment) ;;;
  if keep then append_experiment (VDict parsed_experiment) else ret tt.

Definition summary_params (webenv : json) (retstart : Z) : SummaryParams :=
  mkParams "sra" "json" "1" webenv retstart 500.

(** Lines 159-176: the request for one page and the refresh of
    [biosample_data]. *)
Definition fetch_page (webenv : json) (retstart : Z) : M unit :=
  if truthy webenv then
    let biosample_query_params := summary_params webenv retstart in
    send biosample_query_params ;;;
    let biosample_response := esummary biosample_query_params in
    if (status_code biosample_response =? 200)%Z
       && negb (re_search error_marker (body biosample_response))
    then
      match json_loads (body biosample_response) with
      | Some d => set_biosample_data d
      | None =>
          print (DumpParams biosample_query_params) ;;;
          print (Line (body biosample_response)) ;;;
          exit 1
      end
    else ret tt
  else ret tt.

(** Lines 178-182: [KeyError] is caught and turned into [exit(1)], any
    other exception escapes. *)
Definition check_uids : M unit :=
  data <-- get_biosample_data ;;;
  match (r <- jgetitem data "result" ;; jgetitem r "uids") with
  | Ok _ => ret tt
  | Raise KeyError => print (DumpData data) ;;; exit 1
  | Raise e => lift (Raise e)
  end.

(** Lines 184-193. *)
Definition process_page : M unit :=
  data <-- get_biosample_data ;;;
  uids <-- lift (r <- jgetitem data "result" ;; u <- jgetitem r "uids" ;;
                 jiterate u) ;;;
  for_each (process_uid data) uids.

(** Lines 196-197, inside the loop over the pages. *)
Definition print_experiments : M unit :=
  es <-- get_experiments ;;;
  for_each print_experiment_csv es.

(** The body of the loop over [intervals] (lines 158-197). *)
Definition page_body (webenv : json) (retstart : Z) : M unit :=
  fetch_page webenv retstart ;;;
  check_uids ;;;
  process_page ;;;
  print_experiments.

(** Lines 124-129: the search call. *)
Definition search (project_id : string) : result json :=
  let project_response := esearch project_id in
  if (status_code project_response =? 200)%Z then
    match json_loads (body project_response) with
    | Some project_data =>
        r <- jgetitem project_data "esearchresult" ;; jgetitem r "webenv"
    | None => Raise JSONDecodeError
    end
  else Ok JNull.

Definition intervals (max_samples : Z) : list Z :=
  range 0 (max_samples + 1) 500.

Definition initial_state : state := mkState JNull [] [] [].

Definition main_M (project_id : string) (max_samples : Z) : M unit :=
  project_query_webenv <-- lift (search project_id) ;;;
  print (Line header) ;;;
  for_each (page_body project_query_webenv) (intervals max_samples).

Definition main (project_id : string) (max_samples : Z) : state * outcome unit :=
  main_M project_id max_samples initial_state.

End Main.

(** ** Fixtures: a small project served by a table-driven transport *)

Module Fixture.

Definition q : string := String dquote EmptyString.

(** Serialisation of an element, and of a JSON document, so that the
    bodies the fixture serves are the texts a server would send. *)
Definition xml_attrs (a : list (string * string)) : string :=
  String.concat "" (map (fun kv => (" " ++ fst kv ++ "=" ++ q ++ snd kv ++ q)%string) a).

Fixpoint xml_of (e : Element) : string :=
  match e with
  | Elem t a txt cs =>
      ("<" ++ t ++ xml_attrs a ++ ">"
       ++ match txt with Some s => s | None => "" end
       ++ String.concat "" (map xml_of cs)
       ++ "</" ++ t ++ ">")%string
  end.

Fixpoint escape (s : string) : string :=
  match s with
  | EmptyString => EmptyString
  | String c s' =>
      if Ascii.eqb c dquote then String "\" (String c (escape s'))
      else if Ascii.eqb c "\" then String "\" (String c (escape s'))
      else String c (escape s')
  end.

Definition jquote (s : string) : string := (q ++ escape s ++ q)%string.

Fixpoint json_dumps (j : json) : string :=
  match j with
  | JNull => "null"
  | JBool true => "true"
  | JBool false => "false"
  | JNum n => DecimalString.NilZero.string_of_int (Z.to_int n)
  | JStr s => jquote s
  | JArr l => ("[" ++ String.concat ", " (map json_dumps l) ++ "]")%string
  | JObj o =>
      ("{" ++ String.concat ", "
                (map (fun kv => jquote (fst kv) ++ ": " ++ json_dumps (snd kv)) o)
       ++ "}")%string
  end.

Definition leaf (t s : string) : Element := Elem t [] (Some s) [].
Definition attrs (t : string) (a : list (string * string)) : Element :=
  Elem t a None [].

(** The children of the [expxml] fragment of one experiment. *)
Definition expxml (exp_acc title platform : string) : list Element :=
  [ Elem "Summary" [] None
      [ leaf "Title" title;
        Elem "Platform" [("instrument_model", "Illumina MiSeq")] (Some platform) [];
        attrs "Statistics" [("total_runs", "1"); ("total_spots", "1000");
                            ("total_bases", "300000"); ("total_size", "150000")] ];
    attrs "Submitter" [("acc", "SRA000001"); ("center_name", "BCCDC")];
    attrs "Experiment" [("acc", exp_acc); ("ver", "1"); ("name", title)];
    attrs "Study" [("acc", "SRP000001"); ("name", "Surveillance")];
    attrs "Organism" [("taxid", "562"); ("ScientificName", "Escherichia coli")];
    attrs "Sample" [("acc", "SRS000001"); ("name", "isolate")];
    attrs "Instrument" [(platform, "Illumina MiSeq")];
    Elem "Library_descriptor" [] None
      [ leaf "LIBRARY_NAME" "lib1";
        leaf "LIBRARY_STRATEGY" "WGS";
        leaf "LIBRARY_SOURCE" "GENOMIC";
        leaf "LIBRARY_SELECTION" "RANDOM" ];
    leaf "Bioproject" "PRJNA000001";
    leaf "Biosample" "SAMN00000001" ].

Definition run (acc : string) : Element :=
  attrs "Run" [("acc", acc); ("total_spots", "1000"); ("total_bases", "300000")].

Definition fragment (cs : list Element) : string :=
  String.concat "" (map xml_of cs).

Definition entry (exp : list Element) (runs : list Element) : json :=
  JObj [("expxml", JStr (fragment exp)); ("runs", JStr (fragment runs))].

Definition page (entries : list (string * json)) : json :=
  JObj [("header", JObj [("type", JStr "esummary")]);
        ("result", JObj (("uids", JArr (map (fun kv => JStr (fst kv)) entries))
                           :: entries))].

(** Table-driven parsers: each maps the texts of the fixture to the tree
    or document they denote, and fails on anything else. *)
Fixpoint lookup {A} (tbl : list (string * A)) (s : string) : option A :=
  match tbl with
  | [] => None
  | (k, v) :: tbl' => if String.eqb k s then Some v else lookup tbl' s
  end.

Definition fromstring_of (roots : list (list Element)) : string -> option Element :=
  lookup (map (fun cs => (("<root>" ++ fragment cs ++ "</root>")%string,
                          Elem "root" [] None cs)) roots).

Definition json_loads_of (docs : list json) : string -> option json :=
  lookup (map (fun j => (json_dumps j, j)) docs).

Definition ok (j : json) : Response := mkResponse 200 (json_dumps j).

Definition search_doc : json :=
  JObj [("header", JObj [("type", JStr "esearch")]);
        ("esearchresult", JObj [("count", JStr "2"); ("webenv", JStr "MCID_01");
                                ("querykey", JStr "1")])].

Definition exp1 := expxml "SRX000001" "first" "ILLUMINA".
Definition exp2 := expxml "SRX000002" "second" "ILLUMINA".
Definition exp3 := expxml "SRX000003" "third" "OXFORD_NANOPORE".

Definition page0 : json := page [("101", entry exp1 [run "SRR000001"])].
Definition page1 : json := page [("102", entry exp2 [run "SRR000002"])].
Definition page_mixed : json :=
  page [("101", entry exp1 [run "SRR000001"]);
        ("103", entry exp3 [run "SRR000003"])].
(** A page whose only experiment has two runs. *)
Definition page_two_runs : json :=
  page [("104", entry exp1 [run "SRR000004"; run "SRR000005"])].

(** A page whose payload has a field named [error]. *)
Definition page_noted : json :=
  page [("101", JObj [("expxml", JStr (fragment exp1));
                      ("runs", JStr (fragment [run "SRR000001"]));
                      ("qc", JObj [("error", JStr "0.01")])])].
Definition error_doc : json :=
  JObj [("error", JStr "Unable to obtain query #1")].

Definition fromstring : string -> option Element :=
  fromstring_of [exp1; exp2; exp3; [run "SRR000001"]; [run "SRR000002"];
                 [run "SRR000003"]; [run "SRR000004"; run "SRR000005"]].

Definition pages_by_retstart (pages : list (Z * Response)) (p : SummaryParams)
  : Response :=
  match find (fun kv => (fst kv =? retstart p)%Z) pages with
  | Some kv => snd kv
  | None => mkResponse 200 (json_dumps error_doc)
  end.

End Fixture.

(** ** Notions the statements below refer to *)

(** The fragment [<root><x>1</x><x>2</x></root>] as a tree. *)
Definition root_x1_x2 : Element :=
  Elem "root" [] None [Elem "x" [] (Some "1") []; Elem "x" [] (Some "2") []].

(** The same two elements one level down: [<root><w><x>1</x><x>2</x></w></root>]. *)
Definition root_w_x1_x2 : Element :=
  Elem "root" [] None
       [Elem "w" [] None [Elem "x" [] (Some "1") []; Elem "x" [] (Some "2") []]].

(** A scalar holding the trimmed text, absent when nothing but white space
    is left: what a trimming normaliser would store for [element.text]. *)
Definition trimmed_scalar (t : option string) : value :=
  match t with
  | None => VNone
  | Some s => if String.eqb (strip s) "" then VNone else VStr (strip s)
  end.

(** [<root><x> 1 </x></root>] and [<root><x>  </x></root>]. *)
Definition root_x_padded : Element :=
  Elem "root" [] None [Elem "x" [] (Some " 1 ") []].

Definition root_x_blank : Element :=
  Elem "root" [] None [Elem "x" [] (Some "  ") []].

(** The eighteen experiment-level subscript expressions of
    [print_experiment_csv], those that do not mention [run]. *)
Definition experiment_values (e : value) : result (list value) :=
  f2 <- getitem e "Bioproject" ;;
  f3 <- (x <- getitem e "Experiment" ;; getitem x "acc") ;;
  f4 <- (x <- getitem e "Experiment" ;; getitem x "name") ;;
  f5 <- (x <- getitem e "Organism" ;; getitem x "ScientificName") ;;
  f6 <- (x <- getitem e "Instrument" ;; getitem x "ILLUMINA") ;;
  f7 <- (x <- getitem e "Submitter" ;; getitem x "center_name") ;;
  f8 <- (x <- getitem e "Study" ;; getitem x "acc") ;;
  f9 <- (x <- getitem e "Study" ;; getitem x "name") ;;
  f10 <- (x <- getitem e "Sample" ;; getitem x "acc") ;;
  f11 <- (x <- getitem e "Sample" ;; getitem x "name") ;;
  f12 <- (x <- getitem e "Summary" ;; y <- getitem x "Statistics" ;;
          getitem y "total_size") ;;
  f13 <- (x <- getitem e "Summary" ;; y <- getitem x "Statistics" ;;
          getitem y "total_runs") ;;
  f14 <- (x <- getitem e "Summary" ;; y <- getitem x "Statistics" ;;
          getitem y "total_spots") ;;
  f15 <- (x <- getitem e "Summary" ;; y <- getitem x "Statistics" ;;
          getitem y "total_bases") ;;
  f16 <- (x <- getitem e "Library_descriptor" ;; getitem x "LIBRARY_NAME") ;;
  f17 <- (x <- getitem e "Library_descriptor" ;; getitem x "LIBRARY_STRATEGY") ;;
  f18 <- (x <- getitem e "Library_descriptor" ;; getitem x "LIBRARY_SOURCE") ;;
  f19 <- (x <- getitem e "Library_descriptor" ;; getitem x "LIBRARY_SELECTION") ;;
  Ok [f2; f3; f4; f5; f6; f7; f8; f9; f10; f11; f12; f13; f14; f15; f16;
      f17; f18; f19].

Definition experiment_fields (e : value) : result (list string) :=
  vs <- experiment_values e ;; strings_of vs.

(** The column names read off the printed header line. *)
Definition column_names : list string :=
  [ "run_accession"; "bioproject_accession"; "experiment_accession";
    "experiment_title"; "organism_name"; "instrument"; "submitter";
    "study_accession"; "study_title"; "sample_accession"; "sample_title";
    "total_size_mb"; "total_runs"; "total_spots"; "total_bases";
    "library_name"; "library_strategy"; "library_source";
    "library_selection" ].

(** The record has an [Instrument] mapping with the key ["ILLUMINA"]. *)
Definition has_illumina (e : dict) : bool :=
  match dict_get e "Instrument" with
  | Some (VDict i) => key_in "ILLUMINA" (dict_keys i)
  | _ => false
  end.

(** The state after [p] has been sent. *)
Definition sent (st : state) (p : SummaryParams) : state :=
  mkState (biosample_data st) (experiments st) (stdout st) (requests st ++ [p]).

(** The state after the lines [ls] have been printed. *)
Definition printed (st : state) (ls : list string) : state :=
  mkState (biosample_data st) (experiments st) (stdout st ++ map Line ls)
          (requests st).

(** The state after the records [es] have been kept. *)
Definition kept (st : state) (es : list dict) : state :=
  mkState (biosample_data st) (experiments st ++ map VDict es) (stdout st)
          (requests st).

Module Scenario.

Import Fixture.

Definition json_loads : string -> option json :=
  json_loads_of [search_doc; page0; page1; page_mixed; page_noted].

Definition esearch (_ : string) : Response := ok search_doc.

(** Two pages, one ILLUMINA experiment on each. *)
Definition two_pages : SummaryParams -> Response :=
  pages_by_retstart [(0%Z, ok page0); (500%Z, ok page1)].

(** The second of three requests is answered with an API error. *)
Definition error_in_the_middle : SummaryParams -> Response :=
  pages_by_retstart [(0%Z, ok page0); (500%Z, ok error_doc); (1000%Z, ok page1)].

(** Every request is answered with an API error. *)
Definition always_error : SummaryParams -> Response :=
  pages_by_retstart [].

(** One page with an ILLUMINA and a nanopore experiment. *)
Definition mixed_page : SummaryParams -> Response :=
  pages_by_retstart [(0%Z, ok page_mixed)].

(** A first page that decodes, then a page whose payload has a field
    named [error]. *)
Definition noted_page : SummaryParams -> Response :=
  pages_by_retstart [(0%Z, ok page0); (500%Z, ok page_noted)].

Definition webenv : json := JStr "MCID_01".

Definition line1 : string :=
  "SRR000001,PRJNA000001,SRX000001,first,Escherichia coli,Illumina MiSeq,BCCDC,SRP000001,Surveillance,SRS000001,isolate,150000,1,1000,300000,lib1,WGS,GENOMIC,RANDOM".

Definition line2 : string :=
  "SRR000002,PRJNA000001,SRX000002,second,Escherichia coli,Illumina MiSeq,BCCDC,SRP000001,Surveillance,SRS000001,isolate,150000,1,1000,300000,lib1,WGS,GENOMIC,RANDOM".

(** The record of the first experiment, and the same record with two runs
    attached. *)
Definition record1 : dict :=
  dict_set (XmlDictConfig (Elem "root" [] None exp1)) "runs"
           (VList [VDict (dict_of_items (items (run "SRR000001")))]).

(** The record of the third experiment, sequenced on another platform. *)
Definition record3 : dict :=
  dict_set (XmlDictConfig (Elem "root" [] None exp3)) "runs"
           (VList [VDict (dict_of_items (items (run "SRR000003")))]).

Definition record_two_runs : value :=
  VDict (dict_set (XmlDictConfig (Elem "root" [] None exp1)) "runs"
                  (VList [VDict (dict_of_items (items (run "SRR000004")));
                          VDict (dict_of_items (items (run "SRR000005")))])).

End Scenario.

(** ** Frames of the process monad *)

(** A part [f] of the state that a computation leaves as it found it. *)
Definition keeps {X A} (f : state -> X) (m : M A) : Prop :=
  forall st, f (fst (m st)) = f st.

(** A list-valued part [f] of the state to which a computation can only
    append. *)
Definition extends {X A} (f : state -> list X) (m : M A) : Prop :=
  forall st, exists more, f (fst (m st)) = f st ++ more.

(** Case analysis on the subscript expressions of a row, one after the other. *)
Ltac step_binds :=
  repeat match goal with
         | |- context [getitem ?a ?k] =>
             destruct (getitem a k); simpl; try reflexivity
         end.


(** ** Notions for the further properties *)

(** A dict or a list, as opposed to a string or [None]. *)
Definition is_container (v : value) : Prop :=
  match v with
  | VDict _ | VList _ => True
  | _ => False
  end.

(** A value the normaliser can produce: at every depth the keys of a
    mapping are pairwise distinct and the items of a list are containers. *)
Inductive normal : value -> Prop :=
| normal_none : normal VNone
| normal_str (s : string) : normal (VStr s)
| normal_dict (d : dict) :
    NoDup (dict_keys d) ->
    Forall (fun kv => normal (snd kv)) d ->
    normal (VDict d)
| normal_list (l : list value) :
    Forall normal l ->
    Forall is_container l ->
    normal (VList l).

(** The element with the text removed wherever it sits beside child
    elements or attributes, at every depth. *)
Fixpoint erase_text (e : Element) : Element :=
  match e with
  | Elem t a x cs =>
      Elem t a
           (match cs, a with
            | [], [] => x
            | _, _ => None
            end)
           (map erase_text cs)
  end.

(** [s.split(sep)] for a separator of one character. *)
Fixpoint split_on (sep : ascii) (s : string) : list string :=
  match s with
  | EmptyString => [EmptyString]
  | String c s' =>
      if Ascii.eqb c sep then EmptyString :: split_on sep s'
      else
        match split_on sep s' with
        | [] => [String c EmptyString]
        | w :: ws => String c w :: ws
        end
  end.

(** The character [c] occurs in [s]. *)
Fixpoint occurs (c : ascii) (s : string) : bool :=
  match s with
  | EmptyString => false
  | String c' s' => Ascii.eqb c' c || occurs c s'
  end.

(** [f] on every element, up to the first exception. *)
Fixpoint all_ok {A B} (f : A -> result B) (l : list A) : result (list B) :=
  match l with
  | [] => Ok []
  | a :: l' => b <- f a ;; bs <- all_ok f l' ;; Ok (b :: bs)
  end.

(** The lines [print_experiment_csv] prints for a record when no
    expression raises. *)
Definition rows_of (e : value) : result (list string) :=
  runs <- (rs <- getitem e "runs" ;; iterate rs) ;;
  all_ok (row_line e) runs.

(** The value is a [str]. *)
Definition is_str (v : value) : bool :=
  match v with
  | VStr _ => true
  | _ => false
  end.

(** The top-level keys [print_experiment_csv] subscripts a record with. *)
Definition required_keys : list string :=
  [ "Bioproject"; "Experiment"; "Organism"; "Instrument"; "Submitter";
    "Study"; "Sample"; "Summary"; "Library_descriptor" ].

(** No comma in any of the fields. *)
Definition comma_free (fs : list string) : bool :=
  forallb (fun f => negb (occurs "," f)) fs.

(** Case analysis on the subscript expressions of a row that has been
    built, in a hypothesis. *)
Ltac peel_binds H :=
  repeat match type of H with
         | context [bind (getitem ?a ?k) _] =>
             destruct (getitem a k) eqn:?; simpl in H; [|discriminate H]
         end.

(** Lines 185 and 188: the stripped XML text stored under [field] for
    [uid] in a page payload. *)
Definition fragment_of (data uid : json) (field : string) : result string :=
  r <- jgetitem data "result" ;; x <- jsubscript r uid ;;
  s <- jgetitem x field ;; jstrip s.

(** * Properties *)

(** ** Dictionaries *)

Lemma dict_get_set_same (d : dict) (k : string) (v : value) :
  dict_get (dict_set d k v) k = Some v.
Proof.
  induction d as [|[k' v'] d IH]; simpl.
  - now rewrite String.eqb_refl.
  - destruct (String.eqb k' k) eqn:E; simpl; rewrite E; auto.
Qed.

Lemma dict_get_set_other (d : dict) (k k' : string) (v : value) :
  k <> k' -> dict_get (dict_set d k v) k' = dict_get d k'.
Proof.
  intros Hk. induction d as [|[k0 v0] d IH]; simpl.
  - destruct (String.eqb_spec k k'); congruence.
  - destruct (String.eqb_spec k0 k) as [->|Hne]; simpl.
    + destruct (String.eqb_spec k k'); congruence.
    + now rewrite IH.
Qed.

Lemma key_in_spec (k : string) (ks : list string) :
  key_in k ks = true <-> In k ks.
Proof.
  unfold key_in. rewrite existsb_exists. split.
  - intros (x & Hx & E). apply String.eqb_eq in E. now subst.
  - intros H. exists k. split; [assumption | apply String.eqb_refl].
Qed.

(** ** The normaliser *)

Lemma XmlDictConfig_eq (t : string) (a : list (string * string))
      (x : option string) (cs : list Element) :
  XmlDictConfig (Elem t a x cs) =
  fold_left (dict_step XmlDictConfig XmlListConfig) cs
            (if nonempty a then dict_update [] (dict_of_items a) else []).
Proof. reflexivity. Qed.

Lemma XmlListConfig_eq (t : string) (a : list (string * string))
      (x : option string) (cs : list Element) :
  XmlListConfig (Elem t a x cs) =
  fold_left (list_step XmlDictConfig XmlListConfig) cs [].
Proof. reflexivity. Qed.

(** The mapping built for a parent, seen at one of its children: what has
    been built from the children before it, the turn for the child, then
    the turns for the children after it. *)
Lemma XmlDictConfig_at_child (t : string) (a : list (string * string))
      (x : option string) (pre post : list Element) (c : Element) :
  XmlDictConfig (Elem t a x (pre ++ c :: post)) =
  fold_left (dict_step XmlDictConfig XmlListConfig) post
            (dict_step XmlDictConfig XmlListConfig
                       (XmlDictConfig (Elem t a x pre)) c).
Proof. rewrite !XmlDictConfig_eq, fold_left_app. reflexivity. Qed.

Lemma XmlListConfig_at_child (t : string) (a : list (string * string))
      (x : option string) (pre post : list Element) (c : Element) :
  XmlListConfig (Elem t a x (pre ++ c :: post)) =
  fold_left (list_step XmlDictConfig XmlListConfig) post
            (list_step XmlDictConfig XmlListConfig
                       (XmlListConfig (Elem t a x pre)) c).
Proof. rewrite !XmlListConfig_eq, fold_left_app. reflexivity. Qed.

(** A child without children and without attributes is stored as its text. *)
Lemma dict_step_text (self : dict) (t : string) (x : option string) :
  dict_step XmlDictConfig XmlListConfig self (Elem t [] x []) =
  dict_set self t (text_value x).
Proof. reflexivity. Qed.

(** A child without children but with attributes is stored as the dict of
    its attributes, whatever its text. *)
Lemma dict_step_attrib (self : dict) (t : string) (a : list (string * string))
      (x : option string) :
  a <> [] ->
  dict_step XmlDictConfig XmlListConfig self (Elem t a x []) =
  dict_set self t (VDict (dict_of_items a)).
Proof. intros Ha. destruct a; [congruence | reflexivity]. Qed.


(** Keys of a dict built by [dict_set] stay pairwise distinct, and storing
    into a dict its own pairs changes nothing. *)
Lemma dict_set_fresh (d : dict) (k : string) (v : value) :
  ~ In k (dict_keys d) -> dict_set d k v = d ++ [(k, v)].
Proof.
  induction d as [|[k' v'] d IH]; simpl; intros H.
  - reflexivity.
  - destruct (String.eqb_spec k' k) as [->|Hne].
    + exfalso. apply H. now left.
    + rewrite IH; [reflexivity|]. intros Hin. apply H. now right.
Qed.

Lemma dict_keys_set (d : dict) (k : string) (v : value) :
  dict_keys (dict_set d k v) = dict_keys d
  \/ (~ In k (dict_keys d) /\ dict_keys (dict_set d k v) = dict_keys d ++ [k]).
Proof.
  induction d as [|[k' v'] d IH]; simpl.
  - right. split; [tauto | reflexivity].
  - destruct (String.eqb_spec k' k) as [->|Hne]; simpl.
    + now left.
    + destruct IH as [->|[Hn ->]]; [now left|].
      right. split; [|reflexivity]. intros [?|?]; congruence.
Qed.

Lemma dict_set_NoDup (d : dict) (k : string) (v : value) :
  NoDup (dict_keys d) -> NoDup (dict_keys (dict_set d k v)).
Proof.
  intros H. destruct (dict_keys_set d k v) as [->|[Hn ->]]; [assumption|].
  apply NoDup_app; [assumption | repeat constructor; simpl; tauto |].
  intros x Hx [<-|[]]. contradiction.
Qed.

Lemma dict_update_NoDup (other d : dict) :
  NoDup (dict_keys d) -> NoDup (dict_keys (dict_update d other)).
Proof.
  unfold dict_update. revert d.
  induction other as [|[k v] other IH]; intros d H; simpl.
  - assumption.
  - apply IH. now apply dict_set_NoDup.
Qed.

Lemma dict_update_disjoint (other d : dict) :
  NoDup (dict_keys (d ++ other)) -> dict_update d other = d ++ other.
Proof.
  unfold dict_update, dict_keys. revert d.
  induction other as [|[k v] other IH]; intros d H; simpl.
  - now rewrite app_nil_r.
  - rewrite dict_set_fresh.
    + rewrite IH; rewrite <- app_assoc; [reflexivity | exact H].
    + rewrite map_app in H. apply NoDup_remove_2 in H.
      intros Hin. apply H. apply in_or_app. now left.
Qed.

Lemma dict_of_items_twice (its : list (string * string)) :
  dict_update [] (dict_of_items its) = dict_of_items its.
Proof.
  apply dict_update_disjoint. simpl.
  unfold dict_of_items. apply dict_update_NoDup. constructor.
Qed.

(** C1, as the spec states it, fails: the tree of
    [<root><x>1</x><x>2</x></root>] is not normalised to the mapping of ["x"]
    to the list of the scalars ["1"] and ["2"]. *)
Lemma C1_root_is_never_a_list :
  XmlDictConfig root_x1_x2 <> [("x", VList [VStr "1"; VStr "2"])].
Proof. vm_compute. discriminate. Qed.

(** C1 (amended): whenever the parser returns, for a fragment, a root with
    two children of the same tag [x] that have neither attributes nor
    children, [parse_xml] yields the mapping with the single key [x] mapped
    to the text of the second child (the last occurrence wins); for
    [<root><x>1</x><x>2</x></root>] that is ["x"] mapped to ["2"]. The
    list-shape test is made on the children of a child, never on the
    children of the root: one level down the same two elements give a list
    under ["x"], of two empty mappings. *)
Theorem C1_parse_xml_same_tag_at_root
        (fromstring : string -> option Element) (xml_string : string)
        (r x : string) (a : option string) (t1 t2 : option string) :
  fromstring xml_string = Some (Elem r [] a [Elem x [] t1 []; Elem x [] t2 []]) ->
  parse_xml fromstring xml_string = Ok [(x, text_value t2)]
  /\ XmlDictConfig root_x1_x2 = [("x", VStr "2")]
  /\ XmlDictConfig root_w_x1_x2 =
     [("w", VDict [("x", VList [VDict []; VDict []])])].
Proof.
  intros H. unfold parse_xml. rewrite H. repeat split.
  rewrite XmlDictConfig_eq. simpl. unfold dict_step. simpl.
  now rewrite String.eqb_refl.
Qed.

Lemma C1_parse_xml_same_tag_at_root_witness :
  Fixture.fromstring_of [children root_x1_x2] "<root><x>1</x><x>2</x></root>"
  = Some root_x1_x2
  /\ parse_xml (Fixture.fromstring_of [children root_x1_x2])
               "<root><x>1</x><x>2</x></root>"
     = Ok [("x", VStr "2")].
Proof.
  split; [vm_compute; reflexivity|].
  destruct (@C1_parse_xml_same_tag_at_root
              (Fixture.fromstring_of [children root_x1_x2])
              "<root><x>1</x><x>2</x></root>"
              "root" "x" None (Some "1") (Some "2")) as [H _].
  - vm_compute; reflexivity.
  - exact H.
Defined.

(** C8, as the spec states it, fails: the text of [<x> 1 </x>] is stored
    with its blanks, and the white space of [<x>  </x>] is stored as a
    string, not as an absent value. *)
Lemma C8_text_is_not_trimmed :
  dict_get (XmlDictConfig root_x_padded) "x" = Some (VStr " 1 ")
  /\ dict_get (XmlDictConfig root_x_padded) "x"
     <> Some (trimmed_scalar (Some " 1 "))
  /\ dict_get (XmlDictConfig root_x_blank) "x" = Some (VStr "  ")
  /\ dict_get (XmlDictConfig root_x_blank) "x"
     <> Some (trimmed_scalar (Some "  ")).
Proof. vm_compute. repeat split; discriminate. Qed.

(** C8 (amended): for every element without child elements and without
    attributes, met as a child while a mapping is built, the normaliser
    stores under the element's tag the text exactly as the parser gave it,
    untrimmed, and the absent value when the element has no text at all.
    When no later sibling has the same tag, that is the value found under
    the tag in the mapping of the parent. *)
Theorem C8_leaf_stores_raw_text
        (p : string) (a : list (string * string)) (x : option string)
        (pre post : list Element) (t : string) (txt : option string) :
  XmlDictConfig (Elem p a x (pre ++ Elem t [] txt [] :: post)) =
  fold_left (dict_step XmlDictConfig XmlListConfig) post
            (dict_set (XmlDictConfig (Elem p a x pre)) t (text_value txt))
  /\ dict_get (XmlDictConfig (Elem p a x (pre ++ [Elem t [] txt []]))) t
     = Some (text_value txt)
  /\ text_value None = VNone
  /\ (forall s, text_value (Some s) = VStr s).
Proof.
  split; [|split; [|split]].
  - now rewrite XmlDictConfig_at_child, dict_step_text.
  - rewrite XmlDictConfig_at_child, dict_step_text. simpl.
    apply dict_get_set_same.
  - reflexivity.
  - reflexivity.
Qed.

(** C10: for every element that has no child elements but has attributes,
    whatever its text (in particular when the text is not empty), the
    normaliser emits the mapping of the attributes alone: as a child while a
    mapping is built, as an item while a list is built, and as the root. The
    text occurs in none of the three results. *)
Theorem C10_attributes_discard_text
        (t : string) (attrib : list (string * string)) (s : string)
        (p : string) (a : list (string * string)) (x : option string)
        (pre post : list Element) :
  attrib <> [] ->
  s <> "" ->
  XmlDictConfig (Elem p a x (pre ++ Elem t attrib (Some s) [] :: post)) =
  fold_left (dict_step XmlDictConfig XmlListConfig) post
            (dict_set (XmlDictConfig (Elem p a x pre)) t
                      (VDict (dict_of_items attrib)))
  /\ XmlListConfig (Elem p a x (pre ++ Elem t attrib (Some s) [] :: post)) =
     fold_left (list_step XmlDictConfig XmlListConfig) post
               (XmlListConfig (Elem p a x pre) ++ [VDict (dict_of_items attrib)])
  /\ XmlDictConfig (Elem t attrib (Some s) []) = dict_of_items attrib.
Proof.
  intros Ha _.
  assert (XmlDictConfig (Elem t attrib (Some s) []) = dict_of_items attrib) as Hroot.
  { rewrite XmlDictConfig_eq. destruct attrib; [congruence|].
    simpl fold_left. apply dict_of_items_twice. }
  split; [|split].
  - now rewrite XmlDictConfig_at_child, dict_step_attrib.
  - rewrite XmlListConfig_at_child. unfold list_step at 2. simpl children.
    cbv iota. now rewrite Hroot.
  - exact Hroot.
Qed.

Lemma C10_attributes_discard_text_witness :
  [("instrument_model", "Illumina MiSeq")] <> []
  /\ "ILLUMINA" <> ""
  /\ XmlDictConfig
    (Elem "root" [] None
          [Elem "Platform" [("instrument_model", "Illumina MiSeq")]
                (Some "ILLUMINA") []]) =
  [("Platform", VDict [("instrument_model", VStr "Illumina MiSeq")])].
Proof.
  split; [discriminate|]. split; [discriminate|].
  destruct (@C10_attributes_discard_text
              "Platform" [("instrument_model", "Illumina MiSeq")] "ILLUMINA"
              "root" [] None [] []) as [H _]; [discriminate | discriminate |].
  exact H.
Defined.

(** ** Strings *)

Lemma prefix_spec (p s : string) :
  String.prefix p s = true <-> exists post, s = (p ++ post)%string.
Proof.
  revert s. induction p as [|a p IH]; intros s; simpl.
  - destruct s; split; eauto.
  - destruct s as [|b s]; simpl.
    + split; [discriminate | intros (post & H); discriminate].
    + destruct (ascii_dec a b) as [->|Hab].
      * rewrite IH. split; intros (post & H); exists post; congruence.
      * split; [discriminate | intros (post & H); congruence].
Qed.

Lemma re_search_unfold (pat s : string) :
  re_search pat s =
  if String.prefix pat s then true
  else match s with
       | EmptyString => false
       | String _ s' => re_search pat s'
       end.
Proof. destruct s; reflexivity. Qed.

(** [re_search] finds exactly the occurrences of the pattern as a substring. *)
Lemma re_search_spec (pat s : string) :
  re_search pat s = true <-> exists pre post, s = (pre ++ pat ++ post)%string.
Proof.
  split.
  - induction s as [|c s IH]; rewrite re_search_unfold;
      match goal with
      | |- context [String.prefix pat ?x] => destruct (String.prefix pat x) eqn:E
      end.
    + intros _. apply prefix_spec in E as (post & E). now exists ""%string, post.
    + discriminate.
    + intros _. apply prefix_spec in E as (post & E). now exists ""%string, post.
    + intros H. destruct (IH H) as (pre & post & ->).
      now exists (String c pre), post.
  - intros (pre & post & ->). induction pre as [|c pre IH].
    + rewrite re_search_unfold.
      replace (String.prefix pat ("" ++ pat ++ post)) with true; [reflexivity|].
      symmetry. apply prefix_spec. now exists post.
    + change (String c pre ++ pat ++ post)%string
        with (String c (pre ++ pat ++ post)).
      rewrite re_search_unfold.
      destruct (String.prefix pat (String c (pre ++ pat ++ post)));
        [reflexivity | exact IH].
Qed.

(** ** The process monad *)

Lemma keeps_ret {X A} (f : state -> X) (a : A) : keeps f (ret a).
Proof. intros st. reflexivity. Qed.

Lemma keeps_lift {X A} (f : state -> X) (r : result A) : keeps f (lift r).
Proof. intros st. destruct r; reflexivity. Qed.

Lemma keeps_exit {X A} (f : state -> X) (c : Z) : keeps f (@exit A c).
Proof. intros st. reflexivity. Qed.

Lemma keeps_mbind {X A B} (f : state -> X) (m : M A) (k : A -> M B) :
  keeps f m -> (forall a, keeps f (k a)) -> keeps f (mbind m k).
Proof.
  intros Hm Hk st. unfold mbind. specialize (Hm st).
  destruct (m st) as [st' [a|s]]; simpl in *.
  - now rewrite Hk.
  - assumption.
Qed.

Lemma keeps_for_each {X A} (f : state -> X) (body : A -> M unit) (l : list A) :
  (forall a, keeps f (body a)) -> keeps f (for_each body l).
Proof.
  intros Hb. induction l as [|a l IH]; simpl.
  - apply keeps_ret.
  - apply keeps_mbind; auto.
Qed.

Lemma keeps_get_biosample_data {X} (f : state -> X) : keeps f get_biosample_data.
Proof. intros st. reflexivity. Qed.

Lemma keeps_get_experiments {X} (f : state -> X) : keeps f get_experiments.
Proof. intros st. reflexivity. Qed.

Create HintDb frame.

#[local] Hint Resolve keeps_ret keeps_lift keeps_exit keeps_mbind keeps_for_each
  keeps_get_biosample_data keeps_get_experiments : frame.
#[local] Hint Extern 1 (keeps _ (print _)) => (intros ?; reflexivity) : frame.
#[local] Hint Extern 1 (keeps _ (send _)) => (intros ?; reflexivity) : frame.
#[local] Hint Extern 1 (keeps _ (set_biosample_data _)) => (intros ?; reflexivity) : frame.
#[local] Hint Extern 1 (keeps _ (append_experiment _)) => (intros ?; reflexivity) : frame.
#[local] Hint Extern 2 (keeps _ (if ?b then _ else _)) => destruct b : frame.
#[local] Hint Extern 2 (keeps _ (match ?r with Ok _ => _ | Raise _ => _ end)) =>
  destruct r : frame.
#[local] Hint Extern 2 (keeps _ (match ?e with KeyError => _ | _ => _ end)) =>
  destruct e : frame.


Lemma print_experiment_csv_keeps {X} (f : state -> X) (e : value) :
  (forall st o, f (fst (print o st)) = f st) ->
  keeps f (print_experiment_csv e).
Proof.
  intros Hp. unfold print_experiment_csv.
  apply keeps_mbind; [apply keeps_lift|]. intros runs.
  apply keeps_for_each. intros run.
  apply keeps_mbind; [apply keeps_lift|]. intros line st. apply Hp.
Qed.

Section PageFacts.

Variable fromstring : string -> option Element.
Variable json_loads : string -> option json.
Variable esearch : string -> Response.
Variable esummary : SummaryParams -> Response.

(** With the marker in the body, line 170 skips the refresh: the request
    has been sent and nothing else has happened. *)
Lemma fetch_page_marker (webenv : json) (retstart : Z) (st : state) :
  re_search error_marker (body (esummary (summary_params webenv retstart))) = true ->
  fetch_page json_loads esummary webenv retstart st =
  if truthy webenv then send (summary_params webenv retstart) st
  else (st, Next tt).
Proof.
  intros H. unfold fetch_page. destruct (truthy webenv); [|reflexivity].
  unfold mbind. simpl. rewrite H, andb_false_r. reflexivity.
Qed.

(** Without the marker, on status 200, the payload is what the body
    decodes to. *)
Lemma fetch_page_refresh (webenv : json) (retstart : Z) (st : state) (d : json) :
  truthy webenv = true ->
  status_code (esummary (summary_params webenv retstart)) = 200%Z ->
  re_search error_marker (body (esummary (summary_params webenv retstart))) = false ->
  json_loads (body (esummary (summary_params webenv retstart))) = Some d ->
  fetch_page json_loads esummary webenv retstart st =
  (mkState d (experiments st) (stdout st)
           (requests st ++ [summary_params webenv retstart]), Next tt).
Proof.
  intros Hw Hs Hm Hj. unfold fetch_page. rewrite Hw.
  unfold mbind. simpl. rewrite Hs, Hm, Hj. reflexivity.
Qed.

Lemma fetch_page_requests (webenv : json) (retstart : Z) (st : state) :
  requests (fst (fetch_page json_loads esummary webenv retstart st)) =
  requests st ++ (if truthy webenv then [summary_params webenv retstart] else []).
Proof.
  unfold fetch_page. destruct (truthy webenv); [|simpl; now rewrite app_nil_r].
  unfold mbind. simpl.
  destruct (_ && _); [|reflexivity].
  destruct (json_loads _); reflexivity.
Qed.

Lemma check_uids_keeps {X} (f : state -> X) :
  (forall st o, f (fst (print o st)) = f st) -> keeps f check_uids.
Proof.
  intros Hp. unfold check_uids. apply keeps_mbind; auto with frame.
  intros data. destruct (_ <- _ ;; _) as [u|e]; auto with frame.
  destruct e; auto with frame.
  apply keeps_mbind; auto with frame. intros st. apply Hp.
Qed.

Lemma process_uid_keeps {X} (f : state -> X) (data uid : json) :
  (forall st e, f (fst (append_experiment e st)) = f st) ->
  keeps f (process_uid fromstring data uid).
Proof.
  intros Ha. unfold process_uid.
  apply keeps_mbind; auto with frame. intros e.
  apply keeps_mbind; auto with frame. intros [|]; auto with frame.
  intros st. apply Ha.
Qed.

Lemma process_page_keeps {X} (f : state -> X) :
  (forall st e, f (fst (append_experiment e st)) = f st) ->
  keeps f (process_page fromstring).
Proof.
  intros Ha. unfold process_page.
  apply keeps_mbind; auto with frame. intros data.
  apply keeps_mbind; auto with frame. intros uids.
  apply keeps_for_each. intros uid. now apply process_uid_keeps.
Qed.

Lemma print_experiments_keeps {X} (f : state -> X) :
  (forall st o, f (fst (print o st)) = f st) -> keeps f print_experiments.
Proof.
  intros Hp. unfold print_experiments.
  apply keeps_mbind; auto with frame. intros es.
  apply keeps_for_each. intros e. now apply print_experiment_csv_keeps.
Qed.

(** After the request, the rest of the loop body sends nothing. *)
Lemma after_fetch_keeps_requests :
  keeps requests (check_uids ;;; process_page fromstring ;;; print_experiments).
Proof.
  apply keeps_mbind; [apply check_uids_keeps; reflexivity|]. intros _.
  apply keeps_mbind; [apply process_page_keeps; reflexivity|]. intros _.
  apply print_experiments_keeps; reflexivity.
Qed.

Lemma page_body_requests (webenv : json) (retstart : Z) (st : state) :
  requests (fst (page_body fromstring json_loads esummary webenv retstart st)) =
  requests st ++ (if truthy webenv then [summary_params webenv retstart] else []).
Proof.
  unfold page_body. unfold mbind at 1.
  pose proof (fetch_page_requests webenv retstart st) as H.
  destruct (fetch_page json_loads esummary webenv retstart st) as [st' [[]|s]]; simpl in *.
  - rewrite after_fetch_keeps_requests. exact H.
  - exact H.
Qed.

(** The requests of the loop over the pages: one per turn taken, in the
    order of the list, and one per element when the loop runs to its end. *)
Lemma pages_requests (webenv : json) (l : list Z) (st : state) :
  truthy webenv = true ->
  (exists n, requests (fst (for_each (page_body fromstring json_loads esummary webenv) l st)) =
             requests st ++ map (summary_params webenv) (firstn n l))
  /\ (snd (for_each (page_body fromstring json_loads esummary webenv) l st) = Next tt ->
      requests (fst (for_each (page_body fromstring json_loads esummary webenv) l st)) =
      requests st ++ map (summary_params webenv) l).
Proof.
  intros Hw. revert st. induction l as [|r l IH]; intros st.
  - simpl. split; [exists 0%nat|intros _]; now rewrite app_nil_r.
  - simpl for_each. unfold mbind.
    pose proof (page_body_requests webenv r st) as H. rewrite Hw in H.
    destruct (page_body fromstring json_loads esummary webenv r st) as [st' [[]|s]]; simpl in H.
    + destruct (IH st') as [(n & Hn) Hall]. split.
      * exists (S n). rewrite Hn, H. simpl. now rewrite <- app_assoc.
      * intros Hend. rewrite (Hall Hend), H. simpl. now rewrite <- app_assoc.
    + split; [|discriminate]. exists 1%nat. simpl. exact H.
Qed.

End PageFacts.

(** ** The schedule of the pages *)

Lemma intervals_eq (M : Z) :
  intervals M =
  map (fun i => (500 * Z.of_nat i)%Z) (seq 0 (Z.to_nat ((M + 500) / 500))).
Proof.
  unfold intervals, range.
  replace (M + 1 - 0 + 500 - 1)%Z with (M + 500)%Z by lia.
  apply map_ext. intros i. lia.
Qed.

Lemma intervals_In (M r : Z) :
  In r (intervals M) <-> (0 <= r <= M /\ r mod 500 = 0)%Z.
Proof.
  rewrite intervals_eq, in_map_iff. split.
  - intros (i & <- & Hi). apply in_seq in Hi.
    assert (Z.of_nat i < (M + 500) / 500)%Z as Hlt by lia.
    split.
    + pose proof (Z.mul_div_le (M + 500) 500 ltac:(lia)). lia.
    + rewrite Z.mul_comm. apply Z.mod_mul. lia.
  - intros [[H0 HM] Hmod]. exists (Z.to_nat (r / 500)).
    pose proof (Z.div_mod r 500 ltac:(lia)) as Hr. rewrite Hmod in Hr.
    assert (0 <= r / 500)%Z by (apply Z.div_pos; lia).
    split; [lia|]. apply in_seq.
    assert (r / 500 < (M + 500) / 500)%Z.
    { apply Z.div_lt_upper_bound; [lia|].
      pose proof (Z.mul_succ_div_gt (M + 500) 500 ltac:(lia)). lia. }
    lia.
Qed.

Lemma intervals_head (M : Z) :
  (0 <= M)%Z -> exists rest, intervals M = 0%Z :: rest.
Proof.
  intros HM. rewrite intervals_eq.
  assert (1 <= (M + 500) / 500)%Z as H.
  { apply Z.div_le_lower_bound; lia. }
  destruct (Z.to_nat ((M + 500) / 500)) as [|n] eqn:E; [lia|].
  simpl. eauto.
Qed.

(** ** Traces only grow *)

Lemma keeps_extends {X A} (f : state -> list X) (m : M A) :
  keeps f m -> extends f m.
Proof. intros H st. exists []. now rewrite app_nil_r. Qed.

Lemma extends_mbind {X A B} (f : state -> list X) (m : M A) (k : A -> M B) :
  extends f m -> (forall a, extends f (k a)) -> extends f (mbind m k).
Proof.
  intros Hm Hk st. unfold mbind. destruct (Hm st) as (o1 & H1).
  destruct (m st) as [st' [a|s]]; simpl in *.
  - destruct (Hk a st') as (o2 & H2). exists (o1 ++ o2).
    now rewrite H2, H1, app_assoc.
  - now exists o1.
Qed.

Lemma extends_for_each {X A} (f : state -> list X) (body : A -> M unit)
      (l : list A) :
  (forall a, extends f (body a)) -> extends f (for_each body l).
Proof.
  intros Hb. induction l as [|a l IH]; simpl.
  - apply keeps_extends, keeps_ret.
  - apply extends_mbind; auto.
Qed.

Lemma extends_print (o : output) : extends stdout (print o).
Proof. intros st. now exists [o]. Qed.

Lemma extends_append_experiment (e : value) :
  extends experiments (append_experiment e).
Proof. intros st. now exists [e]. Qed.

Lemma extends_print_experiment_csv (e : value) :
  extends stdout (print_experiment_csv e).
Proof.
  unfold print_experiment_csv.
  apply extends_mbind; [apply keeps_extends, keeps_lift|]. intros runs.
  apply extends_for_each. intros run.
  apply extends_mbind; [apply keeps_extends, keeps_lift|]. intros line.
  apply extends_print.
Qed.

Section Traces.

Variable fromstring : string -> option Element.
Variable json_loads : string -> option json.
Variable esummary : SummaryParams -> Response.

Lemma fetch_page_keeps_experiments (webenv : json) (retstart : Z) :
  keeps experiments (fetch_page json_loads esummary webenv retstart).
Proof.
  unfold fetch_page. destruct (truthy webenv); [|apply keeps_ret].
  apply keeps_mbind; [intros st; reflexivity|]. intros _.
  destruct (_ && _); [|apply keeps_ret].
  destruct (json_loads _); [intros st; reflexivity|].
  apply keeps_mbind; [intros st; reflexivity|]. intros _.
  apply keeps_mbind; [intros st; reflexivity|]. intros _.
  apply keeps_exit.
Qed.

Lemma extends_fetch_page (webenv : json) (retstart : Z) :
  extends stdout (fetch_page json_loads esummary webenv retstart).
Proof.
  unfold fetch_page. destruct (truthy webenv); [|apply keeps_extends, keeps_ret].
  apply extends_mbind; [apply keeps_extends; intros st; reflexivity|]. intros _.
  destruct (_ && _); [|apply keeps_extends, keeps_ret].
  destruct (json_loads _).
  - apply keeps_extends. intros st. reflexivity.
  - apply extends_mbind; [apply extends_print|]. intros _.
    apply extends_mbind; [apply extends_print|]. intros _.
    apply keeps_extends, keeps_exit.
Qed.

Lemma extends_check_uids : extends stdout check_uids.
Proof.
  unfold check_uids.
  apply extends_mbind; [apply keeps_extends, keeps_get_biosample_data|].
  intros data.
  destruct (_ <- _ ;; _) as [u|e]; [apply keeps_extends, keeps_ret|].
  destruct e; try apply keeps_extends, keeps_lift.
  apply extends_mbind; [apply extends_print|]. intros _.
  apply keeps_extends, keeps_exit.
Qed.

(** The loop body only appends to what has been printed. *)
Lemma page_body_extends_stdout (webenv : json) (retstart : Z) :
  extends stdout (page_body fromstring json_loads esummary webenv retstart).
Proof.
  unfold page_body.
  apply extends_mbind; [apply extends_fetch_page|]. intros _.
  apply extends_mbind; [apply extends_check_uids|]. intros _.
  apply extends_mbind;
    [apply keeps_extends, process_page_keeps; reflexivity|]. intros _.
  unfold print_experiments.
  apply extends_mbind; [apply keeps_extends, keeps_get_experiments|].
  intros es. apply extends_for_each, extends_print_experiment_csv.
Qed.

(** The loop body only appends to the records kept so far: nothing ever
    takes a record out of [experiments]. *)
Lemma page_body_extends_experiments (webenv : json) (retstart : Z) :
  extends experiments (page_body fromstring json_loads esummary webenv retstart).
Proof.
  unfold page_body.
  apply extends_mbind;
    [apply keeps_extends, fetch_page_keeps_experiments|]. intros _.
  apply extends_mbind;
    [apply keeps_extends, check_uids_keeps; reflexivity|]. intros _.
  apply extends_mbind;
    [|intros _; apply keeps_extends, print_experiments_keeps; reflexivity].
  unfold process_page.
  apply extends_mbind; [apply keeps_extends, keeps_get_biosample_data|].
  intros data.
  apply extends_mbind; [apply keeps_extends, keeps_lift|]. intros uids.
  apply extends_for_each. intros uid. unfold process_uid.
  apply extends_mbind; [apply keeps_extends, keeps_lift|]. intros e.
  apply extends_mbind; [apply keeps_extends, keeps_lift|]. intros [|].
  - apply extends_append_experiment.
  - apply keeps_extends, keeps_ret.
Qed.

End Traces.

(** ** Rows *)

Lemma strings_of_length (vs : list value) (ss : list string) :
  strings_of vs = Ok ss -> List.length ss = List.length vs.
Proof.
  revert ss. induction vs as [|v vs IH]; intros ss; simpl.
  - intros [= <-]. reflexivity.
  - destruct v; try discriminate.
    destruct (strings_of vs) as [ss'|]; simpl; [|discriminate].
    intros [= <-]. simpl. f_equal. now apply IH.
Qed.

(** The nineteen expressions of a row are the run accession followed by the
    eighteen experiment-level ones. *)
Lemma row_values_split (e run : value) :
  row_values e run =
  (acc <- getitem run "acc" ;; rest <- experiment_values e ;; Ok (acc :: rest)).
Proof. unfold row_values, experiment_values. step_binds. Qed.

Lemma experiment_values_length (e : value) (vs : list value) :
  experiment_values e = Ok vs -> List.length vs = 18%nat.
Proof.
  unfold experiment_values. step_binds; try discriminate.
  intros [= <-]. reflexivity.
Qed.

Lemma row_fields_length (e run : value) (fs : list string) :
  row_fields e run = Ok fs -> List.length fs = 19%nat.
Proof.
  unfold row_fields. rewrite row_values_split.
  destruct (getitem run "acc") as [acc|]; simpl; [|discriminate].
  destruct (experiment_values e) as [rest|] eqn:E; simpl; [|discriminate].
  apply experiment_values_length in E.
  destruct acc; try discriminate.
  destruct (strings_of rest) as [ss|] eqn:S; simpl; [|discriminate].
  intros [= <-]. simpl. apply strings_of_length in S. congruence.
Qed.

Lemma row_line_fields (e run : value) (fs : list string) :
  row_fields e run = Ok fs -> row_line e run = Ok (String.concat "," fs).
Proof.
  unfold row_fields, row_line, join.
  destruct (row_values e run); simpl; [|discriminate].
  now intros ->.
Qed.

(** ** The claims about the page loop *)

(** C9: the error marker is looked for as a substring of the raw body.
    Whenever the eight characters ["error":] occur anywhere in the body of
    the response to a page request, whatever the status code and whatever
    the body decodes to, [biosample_data] is left as it was, nothing is
    printed and the loop body goes on. *)
Theorem C9_marker_anywhere_skips_refresh
        (json_loads : string -> option json)
        (esummary : SummaryParams -> Response)
        (webenv : json) (retstart : Z) (st : state) :
  (exists pre post,
      body (esummary (summary_params webenv retstart))
      = (pre ++ error_marker ++ post)%string) ->
  biosample_data (fst (fetch_page json_loads esummary webenv retstart st))
  = biosample_data st
  /\ stdout (fst (fetch_page json_loads esummary webenv retstart st)) = stdout st
  /\ snd (fetch_page json_loads esummary webenv retstart st) = Next tt.
Proof.
  intros H. apply re_search_spec in H.
  rewrite (fetch_page_marker json_loads esummary webenv retstart st H).
  destruct (truthy webenv); repeat split.
Qed.

Lemma C9_marker_anywhere_skips_refresh_witness :
  let st := mkState Fixture.page0 [] [] [] in
  let r := fetch_page Scenario.json_loads Scenario.noted_page Scenario.webenv 500 st in
  Scenario.json_loads (body (Scenario.noted_page (summary_params Scenario.webenv 500)))
  = Some Fixture.page_noted
  /\ biosample_data (fst r) = Fixture.page0
  /\ stdout (fst r) = []
  /\ snd r = Next tt.
Proof.
  split; [vm_compute; reflexivity|].
  apply (@C9_marker_anywhere_skips_refresh
           Scenario.json_loads Scenario.noted_page Scenario.webenv 500
           (mkState Fixture.page0 [] [] [])).
  apply re_search_spec. vm_compute. reflexivity.
Defined.

(** C5: the page requests follow [range(0, M + 1, 500)]: the multiples of
    500 from 0 up to [M] inclusive, in increasing order. With a session
    token, the [retstart] values of the requests sent are, in the order
    sent, a prefix of that schedule whatever the server answers, and the
    whole schedule when the run is not cut short; the k-th request is the
    record with [db = sra], [retmode = json], [query_key = 1], the token,
    the k-th value of the schedule as [retstart] and [retmax = 500].
    Nothing the server reports enters the schedule. For [M = 1200] the
    schedule is 0, 500, 1000, so a run that is not cut short sends exactly
    three requests, with those [retstart] values. *)
Theorem C5_requests_follow_the_schedule
        (fromstring : string -> option Element)
        (json_loads : string -> option json)
        (esearch : string -> Response) (esummary : SummaryParams -> Response)
        (project_id : string) (M : Z) (webenv : json) :
  search json_loads esearch project_id = Ok webenv ->
  truthy webenv = true ->
  let run := main fromstring json_loads esearch esummary project_id M in
  let request := fun r => mkParams "sra" "json" "1" webenv r 500 in
  intervals M
  = map (fun i => (500 * Z.of_nat i)%Z) (seq 0 (Z.to_nat ((M + 500) / 500)))
  /\ (forall r, In r (intervals M) <-> (0 <= r <= M /\ r mod 500 = 0)%Z)
  /\ (exists n, requests (fst run) = map request (firstn n (intervals M))
                /\ map retstart (requests (fst run)) = firstn n (intervals M))
  /\ (snd run = Next tt ->
      requests (fst run) = map request (intervals M)
      /\ map retstart (requests (fst run)) = intervals M
      /\ List.length (requests (fst run)) = Z.to_nat (M / 500 + 1))
  /\ Forall (fun p => retmax p = 500%Z) (requests (fst run))
  /\ intervals 1200 = [0; 500; 1000]%Z
  /\ (M = 1200%Z -> snd run = Next tt ->
      map retstart (requests (fst run)) = [0; 500; 1000]%Z).
Proof.
  intros Hs Hw run request.
  assert (run = for_each (page_body fromstring json_loads esummary webenv)
                         (intervals M)
                         (mkState JNull [] [Line header] [])) as Hrun.
  { unfold run, main, main_M, mbind. rewrite Hs. reflexivity. }
  destruct (pages_requests fromstring json_loads esummary webenv (intervals M)
                           (mkState JNull [] [Line header] []) Hw)
    as [(n & Hn) Hall].
  rewrite <- Hrun in Hn, Hall. simpl in Hn, Hall.
  assert (forall l, map (summary_params webenv) l = map request l) as Hreq.
  { intros l. apply map_ext. intros r. reflexivity. }
  assert (forall l, map retstart (map request l) = l) as Hret.
  { intros l. rewrite map_map. simpl. apply map_id. }
  assert (snd run = Next tt ->
          requests (fst run) = map request (intervals M)
          /\ map retstart (requests (fst run)) = intervals M
          /\ List.length (requests (fst run)) = Z.to_nat (M / 500 + 1))
    as Hdone.
  { intros Hend. rewrite (Hall Hend), Hreq, Hret.
    split; [reflexivity|]. split; [reflexivity|].
    rewrite length_map, intervals_eq, length_map, length_seq.
    replace (M + 500)%Z with (M + 1 * 500)%Z by lia.
    now rewrite Z.div_add by lia. }
  split; [apply intervals_eq|].
  split; [intros r; apply intervals_In|].
  split; [exists n; rewrite Hn, Hreq, Hret; split; reflexivity|].
  split; [exact Hdone|].
  split; [|split; [reflexivity|]].
  - rewrite Hn. apply Forall_forall. intros p Hp.
    apply in_map_iff in Hp as (r & <- & _). reflexivity.
  - intros HM Hend. destruct (Hdone Hend) as (_ & -> & _).
    rewrite HM. reflexivity.
Qed.

Lemma C5_requests_follow_the_schedule_witness :
  let run := main Fixture.fromstring Scenario.json_loads Scenario.esearch
                  Scenario.two_pages "PRJNA000001" 1200 in
  search Scenario.json_loads Scenario.esearch "PRJNA000001" = Ok Scenario.webenv
  /\ snd run = Next tt
  /\ map retstart (requests (fst run)) = [0; 500; 1000]%Z
  /\ requests (fst run)
     = [mkParams "sra" "json" "1" Scenario.webenv 0 500;
        mkParams "sra" "json" "1" Scenario.webenv 500 500;
        mkParams "sra" "json" "1" Scenario.webenv 1000 500].
Proof.
  split; [vm_compute; reflexivity|].
  split; [vm_compute; reflexivity|].
  destruct (@C5_requests_follow_the_schedule
              Fixture.fromstring Scenario.json_loads Scenario.esearch
              Scenario.two_pages "PRJNA000001" 1200 Scenario.webenv)
    as (_ & _ & _ & Hall & _ & _ & H1200).
  - vm_compute; reflexivity.
  - reflexivity.
  - split.
    + apply H1200; [reflexivity | vm_compute; reflexivity].
    + destruct Hall as (H & _ & _); [vm_compute; reflexivity|].
      rewrite H. reflexivity.
Defined.

(** C4 at a run of three page requests whose second response holds the
    error marker. The claim asks for the run to stop there, with no row for
    that page or a later one and no third request. The run goes on to its
    end instead: the payload of the first page, still held, is assembled
    and printed again while the second request is processed, and the third
    request is sent. *)
Theorem C4_error_page_does_not_abort :
  let run := main Fixture.fromstring Scenario.json_loads Scenario.esearch
                  Scenario.error_in_the_middle "PRJNA000001" 1000 in
  re_search error_marker
            (body (Scenario.error_in_the_middle
                     (summary_params Scenario.webenv 500))) = true
  /\ snd run = Next tt
  /\ map retstart (requests (fst run)) = [0; 500; 1000]%Z
  /\ stdout (fst run)
     = map Line [header; Scenario.line1;
                 Scenario.line1; Scenario.line1;
                 Scenario.line1; Scenario.line1; Scenario.line2].
Proof. vm_compute. repeat split. Qed.

(** C2 at a run over two pages with one kept experiment each (the claim
    asks for the header and the two rows): the row of the first page is
    printed again when the second page is processed. *)
Theorem C2_first_page_row_is_printed_twice :
  let run := main Fixture.fromstring Scenario.json_loads Scenario.esearch
                  Scenario.two_pages "PRJNA000001" 500 in
  snd run = Next tt
  /\ map retstart (requests (fst run)) = [0; 500]%Z
  /\ stdout (fst run)
     = map Line [header; Scenario.line1; Scenario.line1; Scenario.line2].
Proof. vm_compute. repeat split. Qed.

(** C7, as the spec states it, fails: the row of the first experiment of
    the fixture has nineteen fields, not eighteen. *)
Lemma C7_a_row_has_nineteen_fields :
  exists fs,
    row_fields (VDict Scenario.record1)
               (VDict (dict_of_items (items (Fixture.run "SRR000001")))) = Ok fs
    /\ List.length fs = 19%nat
    /\ List.length fs <> 18%nat.
Proof. eexists. vm_compute. repeat split. discriminate. Qed.

(** C7 (amended): every row handed to [','.join] is a sequence of exactly
    nineteen strings, and the printed row is their comma-join. Once the
    search call has returned, the output begins with the header line: the
    comma-join of the eighteen literals of [output_fields], which reads as
    nineteen column names because the sixth literal is
    ["instrument,submitter"]; the names are those of the code
    ([submitter], [total_size_mb]). *)
Theorem C7_nineteen_fields_under_the_header
        (fromstring : string -> option Element)
        (json_loads : string -> option json)
        (esearch : string -> Response) (esummary : SummaryParams -> Response)
        (project_id : string) (M : Z) (webenv : json)
        (e run : value) (fs : list string) :
  search json_loads esearch project_id = Ok webenv ->
  row_fields e run = Ok fs ->
  List.length fs = 19%nat
  /\ row_line e run = Ok (String.concat "," fs)
  /\ (exists rest,
         stdout (fst (main fromstring json_loads esearch esummary project_id M))
         = Line header :: rest)
  /\ List.length output_fields = 18%nat
  /\ List.length column_names = 19%nat
  /\ header = String.concat "," column_names.
Proof.
  intros Hs Hf.
  split; [now apply row_fields_length with e run|].
  split; [now apply row_line_fields|].
  split; [|repeat split].
  unfold main, main_M, mbind. rewrite Hs. simpl.
  destruct (@extends_for_each _ _ stdout
              (page_body fromstring json_loads esummary webenv) (intervals M)
              (page_body_extends_stdout fromstring json_loads esummary webenv)
              (mkState JNull [] [Line header] [])) as (more & ->).
  now exists more.
Qed.

Lemma C7_nineteen_fields_under_the_header_witness :
  search Scenario.json_loads Scenario.esearch "PRJNA000001" = Ok Scenario.webenv
  /\ row_line (VDict Scenario.record1)
              (VDict (dict_of_items (items (Fixture.run "SRR000001"))))
     = Ok Scenario.line1.
Proof.
  split; [vm_compute; reflexivity|].
  destruct (@C7_nineteen_fields_under_the_header
              Fixture.fromstring Scenario.json_loads Scenario.esearch
              Scenario.two_pages "PRJNA000001" 500 Scenario.webenv
              (VDict Scenario.record1)
              (VDict (dict_of_items (items (Fixture.run "SRR000001"))))
              ["SRR000001"; "PRJNA000001"; "SRX000001"; "first";
               "Escherichia coli"; "Illumina MiSeq"; "BCCDC"; "SRP000001";
               "Surveillance"; "SRS000001"; "isolate"; "150000"; "1"; "1000";
               "300000"; "lib1"; "WGS"; "GENOMIC"; "RANDOM"])
    as (_ & H & _).
  - vm_compute; reflexivity.
  - vm_compute; reflexivity.
  - exact H.
Defined.

(** ** The flattener *)

Lemma printed_nil (st : state) : printed st [] = st.
Proof. destruct st. unfold printed. simpl. now rewrite app_nil_r. Qed.

Lemma printed_cons (st : state) (l : string) (ls : list string) :
  printed (printed st [l]) ls = printed st (l :: ls).
Proof. unfold printed. simpl. now rewrite <- app_assoc. Qed.

Lemma print_rows (e : value) (runs : list value) (ls : list string) (st : state) :
  Forall2 (fun run l => row_line e run = Ok l) runs ls ->
  for_each (fun run => line <-- lift (row_line e run) ;;; print (Line line))
           runs st
  = (printed st ls, Next tt).
Proof.
  intros H. revert st. induction H as [|run l runs ls Hl _ IH]; intros st.
  - simpl. now rewrite printed_nil.
  - simpl. unfold mbind at 1. unfold mbind at 1. rewrite Hl. simpl.
    change (mkState (biosample_data st) (experiments st) (stdout st ++ [Line l])
                    (requests st)) with (printed st [l]).
    now rewrite IH, printed_cons.
Qed.

Lemma row_with_common (e run : value) (acc : string) (common : list string) :
  getitem run "acc" = Ok (VStr acc) ->
  experiment_fields e = Ok common ->
  row_fields e run = Ok (acc :: common)
  /\ row_line e run = Ok (String.concat "," (acc :: common)).
Proof.
  unfold experiment_fields, row_fields, row_line, join.
  intros Ha Hc. rewrite row_values_split, Ha. simpl.
  destruct (experiment_values e) as [rest|]; simpl in *; [|discriminate].
  rewrite Hc. split; reflexivity.
Qed.

Lemma rows_of_runs (e : value) (runs : list value) (accs common : list string) :
  Forall2 (fun run acc => getitem run "acc" = Ok (VStr acc)) runs accs ->
  experiment_fields e = Ok common ->
  Forall2 (fun run l => row_line e run = Ok l) runs
          (map (fun acc => String.concat "," (acc :: common)) accs)
  /\ Forall2 (fun run acc => row_fields e run = Ok (acc :: common)) runs accs.
Proof.
  intros Ha Hc. induction Ha as [|run acc runs accs H _ [IH1 IH2]].
  - split; constructor.
  - destruct (@row_with_common e run acc common H Hc) as [Hf Hl].
    split; constructor; assumption.
Qed.

(** C3: given a record whose [runs] list holds runs with an [acc] each and
    whose eighteen experiment-level fields can be read, the flattener
    prints exactly one row per run, in the order of the list; every row is
    the accession of its run followed by the same eighteen fields. *)
Theorem C3_one_row_per_run
        (e : value) (runs : list value) (accs common : list string)
        (st : state) :
  getitem e "runs" = Ok (VList runs) ->
  Forall2 (fun run acc => getitem run "acc" = Ok (VStr acc)) runs accs ->
  experiment_fields e = Ok common ->
  print_experiment_csv e st
  = (printed st (map (fun acc => String.concat "," (acc :: common)) accs),
     Next tt)
  /\ Forall2 (fun run acc => row_fields e run = Ok (acc :: common)) runs accs
  /\ List.length accs = List.length runs
  /\ List.length common = 18%nat.
Proof.
  intros Hr Ha Hc.
  split; [|split; [|split]].
  - unfold print_experiment_csv. unfold mbind at 1. rewrite Hr. simpl.
    apply print_rows. now apply rows_of_runs.
  - now apply rows_of_runs.
  - symmetry. eapply Forall2_length; eassumption.
  - unfold experiment_fields in Hc.
    destruct (experiment_values e) as [rest|] eqn:E; simpl in Hc; [|discriminate].
    apply strings_of_length in Hc. apply experiment_values_length in E.
    congruence.
Qed.

Lemma C3_one_row_per_run_witness :
  let common := ["PRJNA000001"; "SRX000001"; "first"; "Escherichia coli";
                 "Illumina MiSeq"; "BCCDC"; "SRP000001"; "Surveillance";
                 "SRS000001"; "isolate"; "150000"; "1"; "1000"; "300000";
                 "lib1"; "WGS"; "GENOMIC"; "RANDOM"] in
  experiment_fields Scenario.record_two_runs = Ok common
  /\ print_experiment_csv Scenario.record_two_runs initial_state
     = (printed initial_state
                [String.concat "," ("SRR000004" :: common);
                 String.concat "," ("SRR000005" :: common)],
        Next tt).
Proof.
  split; [vm_compute; reflexivity|].
  eapply (@C3_one_row_per_run Scenario.record_two_runs _
                              ["SRR000004"; "SRR000005"] _ initial_state).
  - vm_compute; reflexivity.
  - repeat constructor.
  - vm_compute; reflexivity.
Defined.

(** ** The assembler *)

Lemma kept_nil (st : state) : kept st [] = st.
Proof. destruct st. unfold kept. simpl. now rewrite app_nil_r. Qed.

Lemma kept_cons (st : state) (e : dict) (es : list dict) :
  kept (kept st [e]) es = kept st (e :: es).
Proof. unfold kept. simpl. now rewrite <- app_assoc. Qed.

Lemma has_illumina_spec (e : dict) :
  has_illumina e = true <->
  exists i, dict_get e "Instrument" = Some (VDict i) /\ In "ILLUMINA" (dict_keys i).
Proof.
  unfold has_illumina. split.
  - destruct (dict_get e "Instrument") as [[| |i|]|]; try discriminate.
    intros H. exists i. split; [reflexivity | now apply key_in_spec].
  - intros (i & -> & H). now apply key_in_spec.
Qed.

Lemma platform_filter_has_illumina
      (e : dict) (i : dict) :
  dict_get e "Instrument" = Some (VDict i) ->
  platform_filter e = Ok (has_illumina e).
Proof.
  intros H. unfold platform_filter, has_illumina. simpl. now rewrite H.
Qed.

Section Assembler.

Variable fromstring : string -> option Element.

(** Lines 190-191: each assembled record has a [runs] list of exactly
    one element, whatever the number of [Run] elements in the fragment. *)
Lemma assemble_attaches_one_run (data uid : json) (e : dict) :
  assemble fromstring data uid = Ok e ->
  exists run, dict_get e "runs" = Some (VList [run]).
Proof.
  unfold assemble.
  repeat match goal with
         | |- bind ?m _ = Ok _ -> _ => destruct m; simpl; [|discriminate]
         end.
  unfold append_runs. simpl. rewrite dict_get_set_same. simpl.
  intros [= <-]. eexists. apply dict_get_set_same.
Qed.

Lemma process_uids (data : json) (uids : list json) (records : list dict)
      (st : state) :
  Forall2 (fun uid e => assemble fromstring data uid = Ok e) uids records ->
  Forall (fun e => exists i, dict_get e "Instrument" = Some (VDict i)) records ->
  for_each (process_uid fromstring data) uids st
  = (kept st (filter has_illumina records), Next tt).
Proof.
  intros H. revert st.
  induction H as [|uid e uids records He _ IH]; intros st Hi.
  - simpl. now rewrite kept_nil.
  - inversion Hi as [|? ? (i & Hinstr) Hi']; subst.
    simpl. unfold mbind at 1. unfold process_uid at 1.
    unfold mbind at 1. rewrite He. simpl.
    unfold mbind at 1.
    rewrite (platform_filter_has_illumina e Hinstr). simpl.
    destruct (has_illumina e).
    + change (append_experiment (VDict e) st) with (kept st [e], Next tt).
      cbv iota beta. now rewrite (IH _ Hi'), kept_cons.
    + simpl. now apply IH.
Qed.

End Assembler.

(** C6: when the records of a page can be assembled and each has an
    [Instrument] mapping, processing the page adds to the kept records
    exactly those whose [Instrument] mapping has the key ["ILLUMINA"], in
    page order, and prints nothing: no row, no count, no report for a
    dropped record. The rows printed next are those of the kept records. *)
Theorem C6_kept_iff_illumina_key
        (fromstring : string -> option Element)
        (uids : list json) (records : list dict) (st : state) :
  (r <- jgetitem (biosample_data st) "result" ;; u <- jgetitem r "uids" ;;
   jiterate u) = Ok uids ->
  Forall2 (fun uid e => assemble fromstring (biosample_data st) uid = Ok e)
          uids records ->
  Forall (fun e => exists i, dict_get e "Instrument" = Some (VDict i)) records ->
  process_page fromstring st = (kept st (filter has_illumina records), Next tt)
  /\ stdout (fst (process_page fromstring st)) = stdout st
  /\ (process_page fromstring ;;; print_experiments) st
     = for_each print_experiment_csv
                (experiments st ++ map VDict (filter has_illumina records))
                (kept st (filter has_illumina records))
  /\ (forall e, In e records ->
        (In e (filter has_illumina records) <->
         exists i, dict_get e "Instrument" = Some (VDict i)
                   /\ In "ILLUMINA" (dict_keys i))).
Proof.
  intros Hu Ha Hi.
  assert (process_page fromstring st
          = (kept st (filter has_illumina records), Next tt)) as Hp.
  { unfold process_page. unfold mbind at 1. simpl.
    unfold mbind at 1. rewrite Hu. simpl. now apply process_uids. }
  split; [exact Hp|]. split; [now rewrite Hp|]. split.
  - unfold mbind at 1. rewrite Hp. reflexivity.
  - intros e He. rewrite filter_In, has_illumina_spec. tauto.
Qed.

Lemma C6_kept_iff_illumina_key_witness :
  let st := mkState Fixture.page_mixed [] [Line header] [] in
  has_illumina Scenario.record1 = true
  /\ has_illumina Scenario.record3 = false
  /\ process_page Fixture.fromstring st = (kept st [Scenario.record1], Next tt)
  /\ stdout (fst (main Fixture.fromstring Scenario.json_loads Scenario.esearch
                       Scenario.mixed_page "PRJNA000001" 0))
     = map Line [header; Scenario.line1].
Proof.
  split; [reflexivity|]. split; [reflexivity|]. split; [|vm_compute; reflexivity].
  apply (@C6_kept_iff_illumina_key
           Fixture.fromstring [JStr "101"; JStr "103"]
           [Scenario.record1; Scenario.record3]
           (mkState Fixture.page_mixed [] [Line header] [])).
  - vm_compute; reflexivity.
  - repeat constructor; vm_compute; reflexivity.
  - repeat constructor; eexists; vm_compute; reflexivity.
Defined.

(** The two [Run] elements of one experiment end as one attached run, the
    last one, since the root of the [runs] fragment is read as a mapping. *)
Remark two_runs_attach_one :
  option_map (fun e => dict_get e "runs")
             (match assemble Fixture.fromstring Fixture.page_two_runs (JStr "104")
              with Ok e => Some e | Raise _ => None end)
  = Some (Some (VList [VDict (dict_of_items (items (Fixture.run "SRR000005")))])).
Proof. vm_compute. reflexivity. Qed.

(** * Further properties *)

(** ** Shape of the normalised values *)

(** Induction on an element with the property known of all its children. *)
Lemma Element_children_ind (P : Element -> Prop) :
  (forall t a x cs, Forall P cs -> P (Elem t a x cs)) ->
  forall e, P e.
Proof.
  intros H. fix IH 1. intros [t a x cs]. apply H.
  induction cs as [|c cs IHcs]; constructor; [apply IH | exact IHcs].
Qed.

Lemma fold_left_invariant {A B} (I : A -> Prop) (P : B -> Prop)
      (f : A -> B -> A) (l : list B) (init : A) :
  (forall acc b, P b -> I acc -> I (f acc b)) ->
  Forall P l -> I init -> I (fold_left f l init).
Proof.
  intros Hstep Hl. revert init.
  induction Hl as [|b l Hb _ IH]; intros init Hi; simpl; auto.
Qed.

Lemma dict_keys_set_In (d : dict) (k k' : string) (v : value) :
  In k' (dict_keys (dict_set d k v)) <-> k' = k \/ In k' (dict_keys d).
Proof.
  induction d as [|[k0 v0] d IH]; simpl.
  - intuition.
  - destruct (String.eqb_spec k0 k) as [->|Hne]; simpl.
    + intuition.
    + rewrite IH. intuition.
Qed.

Lemma dict_keys_update_In (other d : dict) (k : string) :
  In k (dict_keys (dict_update d other)) <->
  In k (dict_keys d) \/ In k (dict_keys other).
Proof.
  unfold dict_update. revert d.
  induction other as [|[k0 v0] other IH]; intros d; simpl.
  - intuition.
  - rewrite IH, dict_keys_set_In. simpl. intuition.
Qed.

Lemma dict_keys_of_items (its : list (string * string)) (k : string) :
  In k (dict_keys (dict_of_items its)) <-> In k (map fst its).
Proof.
  unfold dict_of_items. rewrite dict_keys_update_In. simpl.
  unfold dict_keys. rewrite map_map. simpl. intuition.
Qed.

Lemma dict_set_values (Q : value -> Prop) (d : dict) (k : string) (v : value) :
  Q v -> Forall (fun kv => Q (snd kv)) d ->
  Forall (fun kv => Q (snd kv)) (dict_set d k v).
Proof.
  intros Hv Hd. induction Hd as [|[k0 v0] d H0 Hd IH]; simpl.
  - constructor; [exact Hv | constructor].
  - destruct (String.eqb k0 k); constructor; assumption.
Qed.

Lemma dict_update_values (Q : value -> Prop) (other d : dict) :
  Forall (fun kv => Q (snd kv)) other ->
  Forall (fun kv => Q (snd kv)) d ->
  Forall (fun kv => Q (snd kv)) (dict_update d other).
Proof.
  unfold dict_update. intros Ho. revert d.
  induction Ho as [|[k v] other Hv _ IH]; intros d Hd; simpl.
  - exact Hd.
  - apply IH. now apply dict_set_values.
Qed.

Lemma normal_dict_set (d : dict) (k : string) (v : value) :
  normal (VDict d) -> normal v -> normal (VDict (dict_set d k v)).
Proof.
  intros Hd Hv. inversion Hd as [| |d' Hk Hvals|]; subst.
  constructor; [now apply dict_set_NoDup | now apply dict_set_values].
Qed.

Lemma normal_dict_update (d other : dict) :
  normal (VDict d) -> Forall (fun kv => normal (snd kv)) other ->
  normal (VDict (dict_update d other)).
Proof.
  intros Hd Ho. inversion Hd as [| |d' Hk Hvals|]; subst.
  constructor; [now apply dict_update_NoDup | now apply dict_update_values].
Qed.

Lemma items_values_normal (its : list (string * string)) :
  Forall (fun kv : string * value => normal (snd kv))
         (map (fun kv => (fst kv, VStr (snd kv))) its).
Proof.
  induction its; simpl; constructor; auto. constructor.
Qed.

Lemma normal_dict_of_items (its : list (string * string)) :
  normal (VDict (dict_of_items its)).
Proof.
  unfold dict_of_items. apply normal_dict_update.
  - constructor; constructor.
  - apply items_values_normal.
Qed.

Lemma normal_nil : normal (VDict []).
Proof. constructor; constructor. Qed.

Lemma normal_values (d : dict) :
  normal (VDict d) -> Forall (fun kv => normal (snd kv)) d.
Proof. intros H. now inversion H. Qed.

Lemma normal_dict_step (self : dict) (element : Element) :
  normal (VDict (XmlDictConfig element)) ->
  normal (VList (XmlListConfig element)) ->
  normal (VDict self) ->
  normal (VDict (dict_step XmlDictConfig XmlListConfig self element)).
Proof.
  intros HD HL Hs. unfold dict_step.
  destruct (nonempty (children element)).
  - apply normal_dict_set; [assumption|].
    assert (normal (VDict (if dict_shaped (children element)
                           then XmlDictConfig element
                           else match children element with
                                | c0 :: _ => [(tag c0, VList (XmlListConfig element))]
                                | [] => []
                                end))) as Ha.
    { destruct (dict_shaped (children element)); [assumption|].
      destruct (children element); [apply normal_nil|].
      constructor.
      - simpl. constructor; [simpl; tauto | constructor].
      - constructor; [exact HL | constructor]. }
    destruct (nonempty (items element)); [|exact Ha].
    apply normal_dict_update; [exact Ha|].
    apply normal_values, normal_dict_of_items.
  - destruct (nonempty (items element)).
    + apply normal_dict_set; [assumption | apply normal_dict_of_items].
    + apply normal_dict_set; [assumption|].
      destruct (text element); constructor.
Qed.

Lemma normal_snoc (l : list value) (v : value) :
  normal (VList l) -> normal v -> is_container v -> normal (VList (l ++ [v])).
Proof.
  intros Hl Hv Hc. inversion Hl as [| | |l' Hn Hcs]; subst.
  constructor; apply Forall_app; split; try assumption;
    (constructor; [assumption | constructor]).
Qed.

Lemma normal_list_step (self : list value) (element : Element) :
  normal (VDict (XmlDictConfig element)) ->
  normal (VList (XmlListConfig element)) ->
  normal (VList self) ->
  normal (VList (list_step XmlDictConfig XmlListConfig self element)).
Proof.
  intros HD HL Hs. unfold list_step.
  destruct (children element) as [|c0 cs];
    [|destruct (dict_shaped (c0 :: cs))];
    (apply normal_snoc; [assumption | assumption | exact I]).
Qed.

(** X1: whatever the element, the mapping and the list the normaliser
    builds from it are well formed at every depth: in each mapping the keys
    are pairwise distinct, and each item of a list is itself a mapping or a
    list, never a string and never [None]. *)
Theorem X1_normalised_values_are_well_formed (e : Element) :
  normal (VDict (XmlDictConfig e)) /\ normal (VList (XmlListConfig e)).
Proof.
  induction e as [t a x cs IH] using Element_children_ind. split.
  - rewrite XmlDictConfig_eq.
    apply (@fold_left_invariant _ _
             (fun acc => normal (VDict acc))
             (fun c => normal (VDict (XmlDictConfig c))
                       /\ normal (VList (XmlListConfig c)))).
    + intros acc c [HD HL] Hacc. now apply normal_dict_step.
    + exact IH.
    + destruct (nonempty a); [|apply normal_nil].
      apply normal_dict_update; [apply normal_nil|].
      apply normal_values, normal_dict_of_items.
  - rewrite XmlListConfig_eq.
    apply (@fold_left_invariant _ _
             (fun acc => normal (VList acc))
             (fun c => normal (VDict (XmlDictConfig c))
                       /\ normal (VList (XmlListConfig c)))).
    + intros acc c [HD HL] Hacc. now apply normal_list_step.
    + exact IH.
    + constructor; constructor.
Qed.

(** ** Keys and precedence *)

(** Every turn of the loop of [XmlDictConfig] is one store under the tag
    of the child. *)
Lemma dict_step_is_set (c : Element) :
  exists v, forall self,
      dict_step XmlDictConfig XmlListConfig self c = dict_set self (tag c) v.
Proof.
  unfold dict_step. destruct (nonempty (children c)).
  - eexists. intros self. reflexivity.
  - destruct (nonempty (items c)); eexists; intros self; reflexivity.
Qed.

Lemma dict_step_keys (self : dict) (c : Element) (k : string) :
  In k (dict_keys (dict_step XmlDictConfig XmlListConfig self c)) <->
  k = tag c \/ In k (dict_keys self).
Proof.
  destruct (dict_step_is_set c) as (v & Hv). rewrite Hv.
  apply dict_keys_set_In.
Qed.

Lemma fold_dict_step_keys (cs : list Element) (d : dict) (k : string) :
  In k (dict_keys (fold_left (dict_step XmlDictConfig XmlListConfig) cs d)) <->
  In k (dict_keys d) \/ In k (map tag cs).
Proof.
  revert d. induction cs as [|c cs IH]; intros d; simpl.
  - intuition.
  - rewrite IH, dict_step_keys. intuition.
Qed.

Lemma fold_dict_step_get (cs : list Element) (d : dict) (k : string) :
  Forall (fun c => tag c <> k) cs ->
  dict_get (fold_left (dict_step XmlDictConfig XmlListConfig) cs d) k
  = dict_get d k.
Proof.
  intros H. revert d. induction H as [|c cs Hc _ IH]; intros d; simpl.
  - reflexivity.
  - rewrite IH. destruct (dict_step_is_set c) as (v & Hv). rewrite Hv.
    now apply dict_get_set_other.
Qed.

(** X2: the keys of the mapping built for an element are exactly the names
    of its attributes and the tags of its child elements. *)
Theorem X2_keys_are_attributes_and_child_tags (e : Element) (k : string) :
  In k (dict_keys (XmlDictConfig e)) <->
  In k (map fst (items e)) \/ In k (map tag (children e)).
Proof.
  destruct e as [t a x cs]. rewrite XmlDictConfig_eq, fold_dict_step_keys.
  simpl. destruct a as [|kv a]; simpl nonempty; cbv iota.
  - simpl. tauto.
  - rewrite dict_keys_update_In, dict_keys_of_items. simpl. tauto.
Qed.

(** X3: among the children of an element the last one with a given tag
    decides the value found under that tag: it is the value that child
    alone would give, whatever the earlier children with the same tag and
    whatever attribute of that name the parent has. *)
Theorem X3_last_child_with_a_tag_wins
        (p : string) (a : list (string * string)) (x : option string)
        (pre post : list Element) (c : Element) :
  Forall (fun c' => tag c' <> tag c) post ->
  dict_get (XmlDictConfig (Elem p a x (pre ++ c :: post))) (tag c)
  = dict_get (dict_step XmlDictConfig XmlListConfig [] c) (tag c).
Proof.
  intros H. rewrite XmlDictConfig_at_child, (fold_dict_step_get _ H).
  destruct (dict_step_is_set c) as (v & Hv).
  now rewrite !Hv, !dict_get_set_same.
Qed.

Lemma X3_last_child_with_a_tag_wins_witness :
  dict_get (XmlDictConfig
              (Elem "root" [("a", "0")] None
                    [Elem "a" [] (Some "1") []; Elem "b" [] (Some "2") [];
                     Elem "a" [] (Some "3") []; Elem "c" [] None []])) "a"
  = Some (VStr "3").
Proof.
  apply (@X3_last_child_with_a_tag_wins
           "root" [("a", "0")] None
           [Elem "a" [] (Some "1") []; Elem "b" [] (Some "2") []]
           [Elem "c" [] None []] (Elem "a" [] (Some "3") [])).
  repeat constructor. discriminate.
Defined.

Lemma list_step_length (self : list value) (c : Element) :
  List.length (list_step XmlDictConfig XmlListConfig self c)
  = S (List.length self).
Proof.
  unfold list_step.
  destruct (children c) as [|c0 cs]; [|destruct (dict_shaped (c0 :: cs))];
    rewrite length_app; simpl; lia.
Qed.

Lemma fold_list_step_length (cs : list Element) (l : list value) :
  List.length (fold_left (list_step XmlDictConfig XmlListConfig) cs l)
  = (List.length l + List.length cs)%nat.
Proof.
  revert l. induction cs as [|c cs IH]; intros l; simpl.
  - lia.
  - rewrite IH, list_step_length. lia.
Qed.

(** X4: the list-shape test looks at the first two children only. A child
    element whose first two children have the same tag is stored as a
    mapping with that tag as its single child-derived key, holding a list
    with one item for every child, whatever the tags of the third and later
    children; the attributes of the element, if any, are stored over it. *)
Theorem X4_only_the_first_two_tags_are_compared
        (self : dict) (t : string) (a : list (string * string))
        (x : option string) (c0 c1 : Element) (rest : list Element) :
  tag c0 = tag c1 ->
  let element := Elem t a x (c0 :: c1 :: rest) in
  dict_step XmlDictConfig XmlListConfig self element
  = dict_set self t
             (VDict (dict_update [(tag c0, VList (XmlListConfig element))]
                                 (dict_of_items a)))
  /\ List.length (XmlListConfig element) = S (S (List.length rest)).
Proof.
  intros Ht element. split.
  - unfold dict_step. simpl. rewrite Ht, String.eqb_refl. simpl.
    destruct a; reflexivity.
  - unfold element. rewrite XmlListConfig_eq, fold_list_step_length.
    simpl. reflexivity.
Qed.

Lemma X4_only_the_first_two_tags_are_compared_witness :
  XmlDictConfig
    (Elem "root" [] None
          [Elem "w" [] None
                [Elem "a" [] (Some "1") []; Elem "a" [] (Some "2") [];
                 Elem "b" [("k", "v")] None []]])
  = [("w", VDict [("a", VList [VDict []; VDict []; VDict [("k", VStr "v")]])])].
Proof.
  destruct (@X4_only_the_first_two_tags_are_compared
              [] "w" [] None
              (Elem "a" [] (Some "1") []) (Elem "a" [] (Some "2") [])
              [Elem "b" [("k", "v")] None []]) as [H _].
  - reflexivity.
  - rewrite XmlDictConfig_eq. simpl fold_left. rewrite H. reflexivity.
Defined.



Lemma dict_get_None_keys (d : dict) (k : string) :
  ~ In k (dict_keys d) -> dict_get d k = None.
Proof.
  induction d as [|[k0 v0] d IH]; simpl; intros H.
  - reflexivity.
  - destruct (String.eqb_spec k0 k) as [->|Hne]; [tauto|].
    apply IH. tauto.
Qed.

Lemma dict_get_Some_keys (d : dict) (k : string) :
  In k (dict_keys d) -> exists v, dict_get d k = Some v.
Proof.
  induction d as [|[k0 v0] d IH]; simpl; intros H.
  - contradiction.
  - destruct (String.eqb_spec k0 k) as [->|Hne]; [eauto|].
    apply IH. destruct H; [congruence | assumption].
Qed.

Lemma dict_get_update_absent (other d : dict) (k : string) :
  ~ In k (dict_keys other) ->
  dict_get (dict_update d other) k = dict_get d k.
Proof.
  unfold dict_update. revert d.
  induction other as [|[k0 v0] other IH]; intros d H; simpl.
  - reflexivity.
  - simpl in H. rewrite IH by tauto. apply dict_get_set_other. tauto.
Qed.

(** [d.update(other)]: a key of [other] ends with the value it has there. *)
Lemma dict_get_update_present (other d : dict) (k : string) (v : value) :
  NoDup (dict_keys other) ->
  dict_get other k = Some v ->
  dict_get (dict_update d other) k = Some v.
Proof.
  unfold dict_update. revert d.
  induction other as [|[k0 v0] other IH]; intros d Hn H; simpl in *.
  - discriminate.
  - inversion Hn as [|? ? Hk0 Hn']; subst.
    destruct (String.eqb_spec k0 k) as [->|Hne].
    + injection H as ->.
      change (fold_left _ other (dict_set d k v))
        with (dict_update (dict_set d k v) other).
      rewrite dict_get_update_absent by assumption.
      apply dict_get_set_same.
    + now apply IH.
Qed.

Lemma dict_get_In_NoDup (d : dict) (k : string) (v : value) :
  NoDup (dict_keys d) -> In (k, v) d -> dict_get d k = Some v.
Proof.
  induction d as [|[k0 v0] d IH]; simpl; intros Hn H.
  - contradiction.
  - inversion Hn as [|? ? Hk0 Hn']; subst.
    destruct H as [[= -> ->]|H].
    + now rewrite String.eqb_refl.
    + destruct (String.eqb_spec k0 k) as [->|Hne]; [|now apply IH].
      exfalso. apply Hk0. unfold dict_keys.
      change k with (fst (k, v)). now apply in_map.
Qed.

Lemma dict_of_items_NoDup (its : list (string * string)) :
  NoDup (dict_keys (dict_of_items its)).
Proof. unfold dict_of_items. apply dict_update_NoDup. constructor. Qed.

(** With attribute names pairwise distinct, [dict(element.items())] maps
    each name to its value. *)
Lemma dict_of_items_get (its : list (string * string)) (k v : string) :
  NoDup (map fst its) -> In (k, v) its ->
  dict_get (dict_of_items its) k = Some (VStr v).
Proof.
  intros Hn Hin. unfold dict_of_items. apply dict_get_update_present.
  - unfold dict_keys. rewrite map_map. exact Hn.
  - apply dict_get_In_NoDup.
    + unfold dict_keys. rewrite map_map. exact Hn.
    + change (k, VStr v) with ((fun kv : string * string => (fst kv, VStr (snd kv))) (k, v)).
      now apply in_map.
Qed.

(** X6: in the mapping stored for a child element that has children of its
    own, an attribute of the element takes precedence over what its
    children give: under the name of each attribute the mapping holds the
    attribute's value, also when a child element has that name as its tag.
    (At the element the mapping is built for, it is the other way round:
    children are stored after the attributes.) *)
Theorem X6_attributes_of_a_child_override_its_children
        (self : dict) (t : string) (a : list (string * string))
        (x : option string) (cs : list Element) (k v : string) :
  cs <> [] ->
  NoDup (map fst a) ->
  In (k, v) a ->
  exists aDict,
    dict_step XmlDictConfig XmlListConfig self (Elem t a x cs)
    = dict_set self t (VDict aDict)
    /\ dict_get aDict k = Some (VStr v).
Proof.
  intros Hcs Hn Hin. unfold dict_step. simpl children. simpl items. simpl tag.
  destruct cs as [|c0 cs]; [congruence|]. simpl nonempty. cbv iota.
  destruct a as [|kv a]; [contradiction|]. simpl nonempty. cbv iota.
  eexists. split; [reflexivity|].
  apply dict_get_update_present.
  - apply dict_of_items_NoDup.
  - now apply dict_of_items_get.
Qed.

Lemma X6_attributes_of_a_child_override_its_children_witness :
  XmlDictConfig
    (Elem "root" [] None
          [Elem "Sample" [("name", "isolate")] None
                [Elem "name" [] (Some "other") []]])
  = [("Sample", VDict [("name", VStr "isolate")])]
  /\ XmlDictConfig
       (Elem "Sample" [("name", "isolate")] None
             [Elem "name" [] (Some "other") []])
     = [("name", VStr "other")].
Proof.
  split; [|reflexivity].
  destruct (@X6_attributes_of_a_child_override_its_children
              [] "Sample" [("name", "isolate")] None
              [Elem "name" [] (Some "other") []] "name" "isolate")
    as (aDict & H & _).
  - discriminate.
  - repeat constructor. simpl. tauto.
  - now left.
  - rewrite XmlDictConfig_eq. simpl fold_left. rewrite H. vm_compute in H.
    injection H as <-. reflexivity.
Defined.

(** ** Text beside children or attributes *)

Lemma fold_left_map_ext {A B} (f : A -> B -> A) (g : B -> B) (l : list B)
      (init : A) :
  Forall (fun b => forall acc, f acc (g b) = f acc b) l ->
  fold_left f (map g l) init = fold_left f l init.
Proof.
  intros H. revert init. induction H as [|b l Hb _ IH]; intros init; simpl.
  - reflexivity.
  - now rewrite Hb, IH.
Qed.

Lemma dict_shaped_erase (cs : list Element) :
  dict_shaped (map erase_text cs) = dict_shaped cs.
Proof.
  destruct cs as [|[t0 a0 x0 c0] [|[t1 a1 x1 c1] cs]]; reflexivity.
Qed.

Lemma erase_text_steps (c : Element) :
  XmlDictConfig (erase_text c) = XmlDictConfig c ->
  XmlListConfig (erase_text c) = XmlListConfig c ->
  (forall self, dict_step XmlDictConfig XmlListConfig self (erase_text c)
                = dict_step XmlDictConfig XmlListConfig self c)
  /\ (forall self, list_step XmlDictConfig XmlListConfig self (erase_text c)
                   = list_step XmlDictConfig XmlListConfig self c).
Proof.
  intros HD HL. destruct c as [t a x cs]. split; intros self.
  - unfold dict_step. rewrite HD, HL.
    change (erase_text (Elem t a x cs))
      with (Elem t a (match cs, a with [], [] => x | _, _ => None end)
                 (map erase_text cs)).
    cbn [children items tag text]. rewrite dict_shaped_erase.
    destruct cs as [|[t0 a0 x0 c0] cs]; simpl; [|reflexivity].
    destruct a; reflexivity.
  - unfold list_step. rewrite HD, HL.
    change (erase_text (Elem t a x cs))
      with (Elem t a (match cs, a with [], [] => x | _, _ => None end)
                 (map erase_text cs)).
    cbn [children].
    destruct cs as [|[t0 a0 x0 c0] [|[t1 a1 x1 c1] cs]]; reflexivity.
Qed.

(** X7: the text of an element that has child elements or attributes never
    reaches the output, at any depth: removing every such text from the
    tree changes neither the mapping nor the list built from it. *)
Theorem X7_text_beside_children_or_attributes_is_ignored (e : Element) :
  XmlDictConfig (erase_text e) = XmlDictConfig e
  /\ XmlListConfig (erase_text e) = XmlListConfig e.
Proof.
  induction e as [t a x cs IH] using Element_children_ind.
  assert (Forall (fun c =>
                    (forall self,
                        dict_step XmlDictConfig XmlListConfig self (erase_text c)
                        = dict_step XmlDictConfig XmlListConfig self c)
                    /\ (forall self,
                           list_step XmlDictConfig XmlListConfig self (erase_text c)
                           = list_step XmlDictConfig XmlListConfig self c)) cs)
    as Hsteps.
  { eapply Forall_impl; [|exact IH]. intros c [HD HL].
    now apply erase_text_steps. }
  simpl erase_text. rewrite !XmlDictConfig_eq, !XmlListConfig_eq. split.
  - apply fold_left_map_ext. eapply Forall_impl; [|exact Hsteps].
    intros c [H _]. exact H.
  - apply fold_left_map_ext. eapply Forall_impl; [|exact Hsteps].
    intros c [_ H]. exact H.
Qed.

(** ** The flattener: errors and the printed text *)

Lemma print_rows_until (e : value) (pre post : list value) (run : value)
      (ls : list string) (x : exn) (st : state) :
  Forall2 (fun r l => row_line e r = Ok l) pre ls ->
  row_line e run = Raise x ->
  for_each (fun run => line <-- lift (row_line e run) ;;; print (Line line))
           (pre ++ run :: post) st
  = (printed st ls, Stop (Uncaught x)).
Proof.
  intros H Hx. revert st. induction H as [|r l pre ls Hl _ IH]; intros st.
  - simpl. unfold mbind at 1. unfold mbind at 1. rewrite Hx. simpl.
    now rewrite printed_nil.
  - simpl. unfold mbind at 1. unfold mbind at 1. rewrite Hl. simpl.
    change (mkState (biosample_data st) (experiments st) (stdout st ++ [Line l])
                    (requests st)) with (printed st [l]).
    now rewrite IH, printed_cons.
Qed.

(** X8: the flattener prints row by row and stops at the first run whose
    row cannot be built: the rows of the runs before it have been printed,
    nothing is printed for it or for the runs after it, and the exception
    ends the process. *)
Theorem X8_flattener_stops_at_the_first_failing_run
        (e : value) (pre post : list value) (run : value)
        (ls : list string) (x : exn) (st : state) :
  getitem e "runs" = Ok (VList (pre ++ run :: post)) ->
  Forall2 (fun r l => row_line e r = Ok l) pre ls ->
  row_line e run = Raise x ->
  print_experiment_csv e st = (printed st ls, Stop (Uncaught x)).
Proof.
  intros Hr Hpre Hx. unfold print_experiment_csv.
  unfold mbind at 1. rewrite Hr. simpl. now apply print_rows_until.
Qed.

Lemma X8_flattener_stops_at_the_first_failing_run_witness :
  let good := VDict (dict_of_items (items (Fixture.run "SRR000004"))) in
  let e := VDict (dict_set Scenario.record1 "runs"
                           (VList [good; VDict []; good])) in
  print_experiment_csv e initial_state
  = (printed initial_state
             ["SRR000004,PRJNA000001,SRX000001,first,Escherichia coli,Illumina MiSeq,BCCDC,SRP000001,Surveillance,SRS000001,isolate,150000,1,1000,300000,lib1,WGS,GENOMIC,RANDOM"],
     Stop (Uncaught KeyError)).
Proof.
  intros good e.
  apply (@X8_flattener_stops_at_the_first_failing_run
           e [good] [good] (VDict []) _ KeyError initial_state).
  - vm_compute; reflexivity.
  - repeat constructor.
  - vm_compute; reflexivity.
Defined.

Lemma strings_of_is_str (vs : list value) :
  (forallb is_str vs = true -> exists ss, strings_of vs = Ok ss)
  /\ (forallb is_str vs = false -> strings_of vs = Raise TypeError).
Proof.
  induction vs as [|v vs [IHt IHf]]; simpl.
  - split; [eauto | discriminate].
  - destruct v; simpl; split; try discriminate; try reflexivity.
    + intros H. destruct (IHt H) as (ss & ->). simpl. eauto.
    + intros H. now rewrite (IHf H).
Qed.

(** X9: a field is never defaulted or converted: when the nineteen values
    of a row can all be looked up but one of them is not a string (the
    [None] of an empty element, a mapping, a list), building the row raises
    [TypeError]; a row is built only when all nineteen are strings. *)
Theorem X9_a_non_string_field_raises
        (e run : value) (vs : list value) :
  row_values e run = Ok vs ->
  (forallb is_str vs = false -> row_line e run = Raise TypeError)
  /\ (forallb is_str vs = true -> exists l, row_line e run = Ok l).
Proof.
  intros H. unfold row_line, join. rewrite H. simpl.
  destruct (strings_of_is_str vs) as [Ht Hf]. split.
  - intros Hb. now rewrite (Hf Hb).
  - intros Hb. destruct (Ht Hb) as (ss & ->). simpl. eauto.
Qed.

Lemma X9_a_non_string_field_raises_witness :
  let e := VDict (dict_set Scenario.record1 "Bioproject" VNone) in
  let run := VDict (dict_of_items (items (Fixture.run "SRR000001"))) in
  row_line e run = Raise TypeError.
Proof.
  intros e run.
  destruct (@X9_a_non_string_field_raises
              e run
              (VStr "SRR000001" :: VNone
                 :: map VStr ["SRX000001"; "first"; "Escherichia coli";
                              "Illumina MiSeq"; "BCCDC"; "SRP000001";
                              "Surveillance"; "SRS000001"; "isolate"; "150000";
                              "1"; "1000"; "300000"; "lib1"; "WGS"; "GENOMIC";
                              "RANDOM"])) as [H _].
  - vm_compute; reflexivity.
  - apply H. reflexivity.
Defined.

Lemma row_values_needs_keys (e run : value) (vs : list value) (k : string) :
  row_values e run = Ok vs ->
  In k required_keys ->
  exists v, getitem e k = Ok v.
Proof.
  unfold row_values. intros H Hk. peel_binds H.
  unfold required_keys in Hk. simpl in Hk.
  repeat (destruct Hk as [<-|Hk]; [eauto|]). contradiction.
Qed.

(** X10: no default stands in for a missing field: when the record lacks
    one of the nine top-level keys the rows are read from, no row is built
    for any run, and the flattener ends the process with an exception at
    the first run, having printed nothing. *)
Theorem X10_a_missing_key_gives_no_row
        (e : dict) (k : string) (run : value) (runs : list value) (st : state) :
  In k required_keys ->
  dict_get e k = None ->
  getitem (VDict e) "runs" = Ok (VList (run :: runs)) ->
  (forall l, row_line (VDict e) run <> Ok l)
  /\ exists x, print_experiment_csv (VDict e) st = (st, Stop (Uncaught x)).
Proof.
  intros Hk Hnone Hruns.
  assert (forall l, row_line (VDict e) run <> Ok l) as Hno.
  { intros l Hl. unfold row_line in Hl.
    destruct (row_values (VDict e) run) as [vs|] eqn:E; [|discriminate].
    destruct (row_values_needs_keys _ _ E Hk) as (v & Hv).
    simpl in Hv. rewrite Hnone in Hv. discriminate. }
  split; [exact Hno|].
  destruct (row_line (VDict e) run) as [l|x] eqn:E; [now destruct (Hno l)|].
  exists x. rewrite <- (printed_nil st) at 2.
  unfold print_experiment_csv. unfold mbind at 1. rewrite Hruns. simpl.
  apply (@print_rows_until (VDict e) [] runs run [] x st); [constructor | exact E].
Qed.

Lemma X10_a_missing_key_gives_no_row_witness :
  let e := [("Bioproject", VStr "PRJNA000001");
            ("runs", VList [VDict [("acc", VStr "SRR000001")]])] in
  exists x, print_experiment_csv (VDict e) initial_state
            = (initial_state, Stop (Uncaught x)).
Proof.
  intros e.
  destruct (@X10_a_missing_key_gives_no_row
              e "Experiment" (VDict [("acc", VStr "SRR000001")]) []
              initial_state) as [_ H].
  - simpl. tauto.
  - reflexivity.
  - reflexivity.
  - exact H.
Defined.

(** ** The printed row as comma-separated text *)

Lemma split_on_cons (sep : ascii) (s : string) :
  exists w ws, split_on sep s = w :: ws.
Proof.
  induction s as [|c s (w & ws & IH)]; simpl; [eauto|].
  destruct (Ascii.eqb c sep); [eauto|]. rewrite IH. eauto.
Qed.

Lemma split_on_word (sep : ascii) (w : string) :
  occurs sep w = false -> split_on sep w = [w].
Proof.
  induction w as [|c w IH]; simpl; [reflexivity|].
  intros H. apply orb_false_iff in H as [Hc Hw].
  rewrite Hc, (IH Hw). reflexivity.
Qed.

Lemma split_on_append (sep : ascii) (w rest : string) :
  occurs sep w = false ->
  split_on sep (w ++ String sep rest) = w :: split_on sep rest.
Proof.
  induction w as [|c w IH]; simpl.
  - intros _. now rewrite Ascii.eqb_refl.
  - intros H. apply orb_false_iff in H as [Hc Hw].
    rewrite Hc, (IH Hw). reflexivity.
Qed.

(** Every piece [split_on] returns is free of the separator. *)
Lemma split_on_pieces (sep : ascii) (s : string) :
  forallb (fun w => negb (occurs sep w)) (split_on sep s) = true.
Proof.
  induction s as [|c s IH]; simpl; [reflexivity|].
  destruct (Ascii.eqb c sep) eqn:E; simpl; [exact IH|].
  destruct (split_on sep s) as [|w ws]; simpl in *.
  - now rewrite E.
  - now rewrite E.
Qed.

Lemma split_concat (fs : list string) :
  fs <> [] -> comma_free fs = true ->
  split_on "," (String.concat "," fs) = fs.
Proof.
  induction fs as [|f fs IH]; [congruence|]. intros _ H.
  unfold comma_free in *. simpl in H. apply andb_true_iff in H as [Hf Hfs].
  apply negb_true_iff in Hf.
  destruct fs as [|g fs].
  - simpl. now apply split_on_word.
  - change (String.concat "," (f :: g :: fs))
      with (f ++ String "," (String.concat "," (g :: fs)))%string.
    rewrite split_on_append by assumption.
    rewrite IH; [reflexivity | discriminate | assumption].
Qed.

(** X11: fields are joined with commas and never quoted or escaped. The
    printed row splits at its commas back into the nineteen fields exactly
    when no field contains a comma; a comma inside a field shifts the
    columns of that row. *)
Theorem X11_row_splits_back_iff_comma_free
        (e run : value) (fs : list string) :
  row_fields e run = Ok fs ->
  exists line,
    row_line e run = Ok line
    /\ (split_on "," line = fs <-> comma_free fs = true).
Proof.
  intros H. exists (String.concat "," fs).
  split; [now apply row_line_fields|]. split.
  - intros Hs. unfold comma_free. rewrite <- Hs. apply split_on_pieces.
  - apply split_concat. apply row_fields_length in H.
    destruct fs; [discriminate | discriminate].
Qed.

Lemma X11_row_splits_back_iff_comma_free_witness :
  let e := VDict (dict_set Scenario.record1 "Bioproject" (VStr "PRJNA1,PRJNA2")) in
  let run := VDict (dict_of_items (items (Fixture.run "SRR000001"))) in
  exists line, row_line e run = Ok line
               /\ List.length (split_on "," line) = 20%nat.
Proof.
  intros e run.
  destruct (@X11_row_splits_back_iff_comma_free
              e run
              ["SRR000001"; "PRJNA1,PRJNA2"; "SRX000001"; "first";
               "Escherichia coli"; "Illumina MiSeq"; "BCCDC"; "SRP000001";
               "Surveillance"; "SRS000001"; "isolate"; "150000"; "1"; "1000";
               "300000"; "lib1"; "WGS"; "GENOMIC"; "RANDOM"])
    as (line & Hl & _).
  - vm_compute; reflexivity.
  - exists line. split; [exact Hl|].
    vm_compute in Hl. injection Hl as <-. vm_compute. reflexivity.
Defined.

(** ** The filter and the flattener together *)

(** X12: the platform filter guarantees the instrument column: for every
    record it keeps, the flattener's subscript
    [e['Instrument']['ILLUMINA']] finds a value. *)
Theorem X12_kept_records_have_the_instrument_field (e : dict) :
  has_illumina e = true ->
  platform_filter e = Ok true
  /\ exists v, (x <- getitem (VDict e) "Instrument" ;; getitem x "ILLUMINA")
               = Ok v.
Proof.
  intros H. pose proof H as H'. apply has_illumina_spec in H as (i & Hi & Hin).
  split.
  - rewrite (platform_filter_has_illumina e Hi), H'. reflexivity.
  - destruct (dict_get_Some_keys _ _ Hin) as (v & Hv).
    exists v. simpl. rewrite Hi. simpl. now rewrite Hv.
Qed.

Lemma X12_kept_records_have_the_instrument_field_witness :
  (x <- getitem (VDict Scenario.record1) "Instrument" ;; getitem x "ILLUMINA")
  = Ok (VStr "Illumina MiSeq").
Proof.
  destruct (@X12_kept_records_have_the_instrument_field Scenario.record1)
    as [_ (v & H)].
  - reflexivity.
  - rewrite H. vm_compute in H. injection H as <-. reflexivity.
Defined.

(** ** The assembler: the runs of an experiment *)

Lemma dict_set_twice (d : dict) (k : string) (v1 v2 : value) :
  dict_set (dict_set d k v1) k v2 = dict_set d k v2.
Proof.
  induction d as [|[k0 v0] d IH]; simpl.
  - now rewrite String.eqb_refl.
  - destruct (String.eqb k0 k) eqn:E; simpl; rewrite E; [reflexivity|].
    now rewrite IH.
Qed.

Section AssemblerFacts.

Variable fromstring : string -> option Element.

(** [assemble] in terms of the two fragments and their trees. *)
Lemma assemble_eq (data uid : json) (sx sr : string) (xroot rroot : Element) :
  fragment_of data uid "expxml" = Ok sx ->
  fromstring ("<root>" ++ sx ++ "</root>") = Some xroot ->
  fragment_of data uid "runs" = Ok sr ->
  fromstring ("<root>" ++ sr ++ "</root>") = Some rroot ->
  assemble fromstring data uid
  = match dict_get (XmlDictConfig rroot) "Run" with
    | Some run => Ok (dict_set (XmlDictConfig xroot) "runs" (VList [run]))
    | None => Raise KeyError
    end.
Proof.
  unfold fragment_of, assemble, parse_xml. intros Hx Hxr Hr Hrr.
  rewrite Hx. cbn [bind]. rewrite Hxr. cbn [bind]. rewrite Hr. cbn [bind].
  rewrite Hrr. cbn [bind getitem].
  destruct (dict_get (XmlDictConfig rroot) "Run") as [run|]; cbn [bind];
    [|reflexivity].
  unfold append_runs. cbn [getitem]. rewrite dict_get_set_same. cbn [bind app].
  now rewrite dict_set_twice.
Qed.

(** X13: of the [Run] elements of an experiment only the last is attached.
    When the runs fragment ends with a [Run] element that has attributes
    and no children, the record's [runs] list holds the attributes of that
    element and nothing else, whatever elements precede it. *)
Theorem X13_only_the_last_run_is_attached
        (data uid : json) (sx sr : string) (xroot : Element)
        (r : string) (ra : list (string * string)) (rx : option string)
        (pre : list Element) (a : list (string * string)) (tx : option string) :
  fragment_of data uid "expxml" = Ok sx ->
  fromstring ("<root>" ++ sx ++ "</root>") = Some xroot ->
  fragment_of data uid "runs" = Ok sr ->
  fromstring ("<root>" ++ sr ++ "</root>")
  = Some (Elem r ra rx (pre ++ [Elem "Run" a tx []])) ->
  a <> [] ->
  assemble fromstring data uid
  = Ok (dict_set (XmlDictConfig xroot) "runs"
                 (VList [VDict (dict_of_items a)])).
Proof.
  intros Hx Hxr Hr Hrr Ha.
  rewrite (assemble_eq _ _ Hx Hxr Hr Hrr).
  rewrite XmlDictConfig_at_child, dict_step_attrib by assumption.
  simpl fold_left. now rewrite dict_get_set_same.
Qed.

(** X14: an experiment without a [Run] element cannot be assembled: when
    the runs fragment has no child with the tag [Run], [parsed_runs['Run']]
    raises [KeyError], which ends the process with nothing kept and nothing
    printed for the record. *)
Theorem X14_no_run_element_is_fatal
        (data uid : json) (sx sr : string) (xroot : Element)
        (r : string) (rx : option string) (cs : list Element) (st : state) :
  fragment_of data uid "expxml" = Ok sx ->
  fromstring ("<root>" ++ sx ++ "</root>") = Some xroot ->
  fragment_of data uid "runs" = Ok sr ->
  fromstring ("<root>" ++ sr ++ "</root>") = Some (Elem r [] rx cs) ->
  Forall (fun c => tag c <> "Run") cs ->
  assemble fromstring data uid = Raise KeyError
  /\ process_uid fromstring data uid st = (st, Stop (Uncaught KeyError)).
Proof.
  intros Hx Hxr Hr Hrr Hcs.
  assert (assemble fromstring data uid = Raise KeyError) as Ha.
  { rewrite (assemble_eq _ _ Hx Hxr Hr Hrr).
    rewrite XmlDictConfig_eq, (fold_dict_step_get _ Hcs). reflexivity. }
  split; [exact Ha|].
  unfold process_uid. unfold mbind at 1. now rewrite Ha.
Qed.

End AssemblerFacts.

Lemma X13_only_the_last_run_is_attached_witness :
  assemble Fixture.fromstring Fixture.page_two_runs (JStr "104")
  = Ok (dict_set (XmlDictConfig (Elem "root" [] None Fixture.exp1)) "runs"
                 (VList [VDict (dict_of_items
                                  (items (Fixture.run "SRR000005")))])).
Proof.
  apply (@X13_only_the_last_run_is_attached
           Fixture.fromstring Fixture.page_two_runs (JStr "104")
           (Fixture.fragment Fixture.exp1)
           (Fixture.fragment [Fixture.run "SRR000004"; Fixture.run "SRR000005"])
           (Elem "root" [] None Fixture.exp1)
           "root" [] None [Fixture.run "SRR000004"]
           (items (Fixture.run "SRR000005")) None).
  - vm_compute; reflexivity.
  - vm_compute; reflexivity.
  - vm_compute; reflexivity.
  - vm_compute; reflexivity.
  - discriminate.
Defined.

Lemma X14_no_run_element_is_fatal_witness :
  let data := Fixture.page [("105", Fixture.entry Fixture.exp1 [])] in
  let parser := Fixture.fromstring_of [Fixture.exp1; []] in
  process_uid parser data (JStr "105") initial_state
  = (initial_state, Stop (Uncaught KeyError)).
Proof.
  intros data parser.
  destruct (@X14_no_run_element_is_fatal
              parser data (JStr "105") (Fixture.fragment Fixture.exp1) ""
              (Elem "root" [] None Fixture.exp1) "root" None []
              initial_state) as [_ H].
  - vm_compute; reflexivity.
  - vm_compute; reflexivity.
  - vm_compute; reflexivity.
  - vm_compute; reflexivity.
  - constructor.
  - exact H.
Defined.

(** ** What a record prints *)

Lemma all_ok_Forall2 {A B} (f : A -> result B) (l : list A) (bs : list B) :
  all_ok f l = Ok bs <-> Forall2 (fun a b => f a = Ok b) l bs.
Proof.
  revert bs. induction l as [|a l IH]; intros bs; simpl.
  - split.
    + intros [= <-]. constructor.
    + intros H. inversion H. reflexivity.
  - split.
    + destruct (f a) as [b|] eqn:E; simpl; [|discriminate].
      destruct (all_ok f l) as [bs'|] eqn:E'; simpl; [|discriminate].
      intros [= <-]. constructor; [exact E | now apply IH].
    + intros H. inversion H as [|? b ? bs' Hb Hbs]; subst.
      rewrite Hb. simpl. apply IH in Hbs. now rewrite Hbs.
Qed.

Lemma print_experiment_csv_rows (e : value) (ls : list string) (st : state) :
  rows_of e = Ok ls ->
  print_experiment_csv e st = (printed st ls, Next tt).
Proof.
  unfold rows_of, print_experiment_csv. intros H. unfold mbind at 1.
  destruct (_ <- getitem e "runs" ;; _) as [runs|]; simpl in *; [|discriminate].
  apply print_rows. now apply all_ok_Forall2.
Qed.

Lemma print_rows_next (e : value) (runs : list value) (st st' : state) :
  for_each (fun run => line <-- lift (row_line e run) ;;; print (Line line))
           runs st = (st', Next tt) ->
  exists ls, all_ok (row_line e) runs = Ok ls /\ st' = printed st ls.
Proof.
  revert st. induction runs as [|run runs IH]; intros st; simpl.
  - intros [= <-]. exists []. now rewrite printed_nil.
  - unfold mbind at 1. unfold mbind at 1.
    destruct (row_line e run) as [l|x]; simpl; [|discriminate].
    change (mkState (biosample_data st) (experiments st) (stdout st ++ [Line l])
                    (requests st)) with (printed st [l]).
    intros H. destruct (IH _ H) as (ls & -> & ->).
    exists (l :: ls). now rewrite printed_cons.
Qed.

Lemma print_experiment_csv_next (e : value) (st st' : state) :
  print_experiment_csv e st = (st', Next tt) ->
  exists ls, rows_of e = Ok ls /\ st' = printed st ls.
Proof.
  unfold rows_of, print_experiment_csv. unfold mbind at 1.
  destruct (_ <- getitem e "runs" ;; _) as [runs|]; simpl; [|discriminate].
  apply print_rows_next.
Qed.

(** X15: every record the assembler builds has exactly one attached run,
    so the flattener prints exactly one row for it whenever it prints
    without an exception. *)
Theorem X15_one_row_per_assembled_record
        (fromstring : string -> option Element) (data uid : json) (e : dict)
        (st st' : state) :
  assemble fromstring data uid = Ok e ->
  print_experiment_csv (VDict e) st = (st', Next tt) ->
  exists run line,
    dict_get e "runs" = Some (VList [run])
    /\ row_line (VDict e) run = Ok line
    /\ st' = printed st [line].
Proof.
  intros Ha Hp.
  destruct (assemble_attaches_one_run _ _ _ Ha) as (run & Hrun).
  destruct (print_experiment_csv_next _ _ Hp) as (ls & Hrows & ->).
  unfold rows_of in Hrows. simpl in Hrows. rewrite Hrun in Hrows.
  simpl in Hrows.
  destruct (row_line (VDict e) run) as [line|] eqn:E; simpl in Hrows;
    [|discriminate].
  injection Hrows as <-. now exists run, line.
Qed.

Lemma X15_one_row_per_assembled_record_witness :
  exists e,
    assemble Fixture.fromstring Fixture.page_two_runs (JStr "104") = Ok e
    /\ exists line,
        print_experiment_csv (VDict e) initial_state
        = (printed initial_state [line], Next tt).
Proof.
  eexists. split; [vm_compute; reflexivity|].
  edestruct (@X15_one_row_per_assembled_record
               Fixture.fromstring Fixture.page_two_runs (JStr "104"))
    as (run & line & _ & _ & H).
  - vm_compute; reflexivity.
  - vm_compute; reflexivity.
  - exists line. rewrite <- H. vm_compute. reflexivity.
Defined.

(** ** The page loop: edges and errors *)

Lemma intervals_length (M : Z) :
  List.length (intervals M) = Z.to_nat (M / 500 + 1).
Proof.
  rewrite intervals_eq, length_map, length_seq.
  replace (M + 500)%Z with (M + 1 * 500)%Z by lia.
  now rewrite Z.div_add by lia.
Qed.

Lemma intervals_negative (M : Z) : (M < 0)%Z -> intervals M = [].
Proof.
  intros H. apply length_zero_iff_nil. rewrite intervals_length.
  assert (M / 500 < 0)%Z by (apply Z.div_lt_upper_bound; lia). lia.
Qed.

Section LoopFacts.

Variable fromstring : string -> option Element.
Variable json_loads : string -> option json.
Variable esearch : string -> Response.
Variable esummary : SummaryParams -> Response.

Lemma main_after_search (project_id : string) (M : Z) (webenv : json) :
  search json_loads esearch project_id = Ok webenv ->
  main fromstring json_loads esearch esummary project_id M
  = for_each (page_body fromstring json_loads esummary webenv) (intervals M)
             (mkState JNull [] [Line header] []).
Proof. intros H. unfold main, main_M, mbind. rewrite H. reflexivity. Qed.

Lemma main_search_raises (project_id : string) (M : Z) (x : exn) :
  search json_loads esearch project_id = Raise x ->
  main fromstring json_loads esearch esummary project_id M
  = (initial_state, Stop (Uncaught x)).
Proof. intros H. unfold main, main_M, mbind. rewrite H. reflexivity. Qed.

(** X16: without a session token no page is ever requested. When the
    search call does not answer with status 200, or answers with a token
    that counts as false, the run prints the header, sends no request and
    ends on the first turn of the loop with an uncaught [TypeError], the
    payload still being [None]. *)
Theorem X16_without_a_token_nothing_is_requested
        (project_id : string) (M : Z) (webenv : json) :
  search json_loads esearch project_id = Ok webenv ->
  truthy webenv = false ->
  (0 <= M)%Z ->
  main fromstring json_loads esearch esummary project_id M
  = (mkState JNull [] [Line header] [], Stop (Uncaught TypeError))
  /\ (status_code (esearch project_id) <> 200%Z ->
      search json_loads esearch project_id = Ok JNull).
Proof.
  intros Hs Hw HM. split.
  - rewrite (main_after_search _ _ Hs).
    destruct (intervals_head HM) as (rest & ->). simpl.
    unfold mbind at 1. unfold page_body. unfold mbind at 1.
    unfold fetch_page. rewrite Hw. reflexivity.
  - intros Hne. unfold search.
    destruct (Z.eqb_spec (status_code (esearch project_id)) 200);
      [contradiction | reflexivity].
Qed.

(** X17: the number of turns of the page loop is [M / 500 + 1], none when
    [M] is negative: then the run prints the header and ends normally
    without a request. *)
Theorem X17_number_of_pages
        (project_id : string) (M : Z) (webenv : json) :
  search json_loads esearch project_id = Ok webenv ->
  List.length (intervals M) = Z.to_nat (M / 500 + 1)
  /\ ((M < 0)%Z ->
      main fromstring json_loads esearch esummary project_id M
      = (mkState JNull [] [Line header] [], Next tt)).
Proof.
  intros Hs. split; [apply intervals_length|].
  intros HM. rewrite (main_after_search _ _ Hs), (intervals_negative HM).
  reflexivity.
Qed.

(** X18: a page body that cannot be decoded ends the run with exit status
    1: the request has been sent, the parameters of the request and the raw
    body are printed, the payload and the kept records are left as they
    were, and no row is printed in that turn. *)
Theorem X18_undecodable_page_exits
        (webenv : json) (retstart : Z) (st : state) :
  let p := summary_params webenv retstart in
  truthy webenv = true ->
  status_code (esummary p) = 200%Z ->
  re_search error_marker (body (esummary p)) = false ->
  json_loads (body (esummary p)) = None ->
  page_body fromstring json_loads esummary webenv retstart st
  = (mkState (biosample_data st) (experiments st)
             (stdout st ++ [DumpParams p; Line (body (esummary p))])
             (requests st ++ [p]),
     Stop (Exit 1)).
Proof.
  intros p Hw Hs Hm Hj. unfold page_body. unfold mbind at 1.
  unfold fetch_page. rewrite Hw. unfold mbind. simpl.
  fold p. rewrite Hs, Hm, Hj. simpl. now rewrite <- app_assoc.
Qed.

(** X19: a decoded payload without [result], or whose [result] has no
    [uids], ends the run with exit status 1 after the payload has been
    printed; it has replaced the payload held before, and no record of the
    page is assembled and no row printed in that turn. *)
Theorem X19_payload_without_uids_exits
        (webenv : json) (retstart : Z) (st : state) (d : json) :
  let p := summary_params webenv retstart in
  truthy webenv = true ->
  status_code (esummary p) = 200%Z ->
  re_search error_marker (body (esummary p)) = false ->
  json_loads (body (esummary p)) = Some d ->
  (r <- jgetitem d "result" ;; jgetitem r "uids") = Raise KeyError ->
  page_body fromstring json_loads esummary webenv retstart st
  = (mkState d (experiments st) (stdout st ++ [DumpData d])
             (requests st ++ [p]),
     Stop (Exit 1)).
Proof.
  intros p Hw Hs Hm Hj Hk. unfold page_body. unfold mbind at 1.
  rewrite (fetch_page_refresh json_loads esummary webenv retstart st Hw Hs Hm Hj).
  unfold mbind at 1. unfold check_uids. unfold mbind at 1. simpl.
  rewrite Hk. reflexivity.
Qed.

(** X20: a response with a status other than 200 is not an error for the
    loop: the body is not looked at, the payload is not refreshed, nothing
    is printed, and the turn goes on with the payload held before. *)
Theorem X20_non_200_status_skips_refresh
        (webenv : json) (retstart : Z) (st : state) :
  status_code (esummary (summary_params webenv retstart)) <> 200%Z ->
  fetch_page json_loads esummary webenv retstart st
  = (if truthy webenv then sent st (summary_params webenv retstart) else st,
     Next tt)
  /\ page_body fromstring json_loads esummary webenv retstart st
     = (check_uids ;;; process_page fromstring ;;; print_experiments)
         (if truthy webenv then sent st (summary_params webenv retstart)
          else st).
Proof.
  intros Hne.
  assert (fetch_page json_loads esummary webenv retstart st
          = (if truthy webenv then sent st (summary_params webenv retstart)
             else st, Next tt)) as Hf.
  { unfold fetch_page. destruct (truthy webenv); [|reflexivity].
    unfold mbind. simpl.
    destruct (Z.eqb_spec (status_code (esummary (summary_params webenv retstart)))
                         200); [contradiction | reflexivity]. }
  split; [exact Hf|].
  unfold page_body. unfold mbind at 1. now rewrite Hf.
Qed.

(** X21: when the search response has status 200 but cannot be decoded,
    or decodes to a document without [esearchresult] or without [webenv]
    in it, the exception is not caught: the run ends before the header is
    printed and before any request for a page. *)
Theorem X21_bad_search_response_aborts_before_header
        (project_id : string) (M : Z) :
  status_code (esearch project_id) = 200%Z ->
  (json_loads (body (esearch project_id)) = None ->
   main fromstring json_loads esearch esummary project_id M
   = (initial_state, Stop (Uncaught JSONDecodeError)))
  /\ (forall d x,
         json_loads (body (esearch project_id)) = Some d ->
         (r <- jgetitem d "esearchresult" ;; jgetitem r "webenv") = Raise x ->
         main fromstring json_loads esearch esummary project_id M
         = (initial_state, Stop (Uncaught x))).
Proof.
  intros Hs. split.
  - intros Hj. apply main_search_raises. unfold search. now rewrite Hs, Hj.
  - intros d x Hj Hx. apply main_search_raises. unfold search.
    now rewrite Hs, Hj.
Qed.

Lemma page_body_keeps_requests_without_token (webenv : json) (retstart : Z) :
  truthy webenv = false ->
  keeps requests (page_body fromstring json_loads esummary webenv retstart).
Proof.
  intros Hw st. rewrite page_body_requests, Hw. apply app_nil_r.
Qed.

Lemma firstn_incl {A} (n : nat) (l : list A) (a : A) :
  In a (firstn n l) -> In a l.
Proof.
  revert l. induction n as [|n IH]; intros [|b l]; simpl; try tauto.
  intros [->|H]; [now left | right; now apply IH].
Qed.

(** X22: every request for a page, in any run, carries the fixed
    parameters [db = sra], [retmode = json], [query_key = 1] and
    [retmax = 500], a [retstart] of the schedule, and as [WebEnv] the
    token the search call returned, which counts as true. *)
Theorem X22_every_request_carries_the_session
        (project_id : string) (M : Z) :
  Forall (fun p =>
            db p = "sra" /\ retmode p = "json" /\ query_key p = "1"
            /\ retmax p = 500%Z
            /\ In (retstart p) (intervals M)
            /\ truthy (WebEnv p) = true
            /\ search json_loads esearch project_id = Ok (WebEnv p))
         (requests (fst (main fromstring json_loads esearch esummary
                              project_id M))).
Proof.
  destruct (search json_loads esearch project_id) as [webenv|x] eqn:Hs.
  - rewrite (main_after_search _ _ Hs).
    destruct (truthy webenv) eqn:Hw.
    + destruct (pages_requests fromstring json_loads esummary webenv
                               (intervals M)
                               (mkState JNull [] [Line header] []) Hw)
        as [(n & Hn) _].
      rewrite Hn. simpl. apply Forall_forall. intros p Hp.
      apply in_map_iff in Hp as (r & <- & Hr). apply firstn_incl in Hr.
      simpl. repeat split; assumption.
    + rewrite (@keeps_for_each _ _ requests
                 (page_body fromstring json_loads esummary webenv)
                 (intervals M)
                 (fun r => @page_body_keeps_requests_without_token webenv r Hw)).
      constructor.
  - rewrite (@main_search_raises project_id M x Hs). constructor.
Qed.

End LoopFacts.

Lemma X16_without_a_token_nothing_is_requested_witness :
  let esearch := fun _ : string => mkResponse 500 "" in
  main Fixture.fromstring Scenario.json_loads esearch Scenario.two_pages
       "PRJNA000001" 5000
  = (mkState JNull [] [Line header] [], Stop (Uncaught TypeError)).
Proof.
  intros esearch.
  destruct (@X16_without_a_token_nothing_is_requested
              Fixture.fromstring Scenario.json_loads esearch Scenario.two_pages
              "PRJNA000001" 5000 JNull) as [H _].
  - reflexivity.
  - reflexivity.
  - lia.
  - exact H.
Defined.

Lemma X17_number_of_pages_witness :
  List.length (intervals 5000) = 11%nat
  /\ main Fixture.fromstring Scenario.json_loads Scenario.esearch
          Scenario.two_pages "PRJNA000001" (-1)
     = (mkState JNull [] [Line header] [], Next tt).
Proof.
  destruct (@X17_number_of_pages
              Fixture.fromstring Scenario.json_loads Scenario.esearch
              Scenario.two_pages "PRJNA000001" (-1) Scenario.webenv) as [_ H].
  - vm_compute; reflexivity.
  - split; [reflexivity | apply H; lia].
Defined.

Lemma X18_undecodable_page_exits_witness :
  let esummary := fun _ : SummaryParams => mkResponse 200 "<html>busy</html>" in
  let p := summary_params Scenario.webenv 0 in
  page_body Fixture.fromstring Scenario.json_loads esummary Scenario.webenv 0
            initial_state
  = (mkState JNull [] [DumpParams p; Line "<html>busy</html>"] [p],
     Stop (Exit 1)).
Proof.
  intros esummary p.
  apply (@X18_undecodable_page_exits
           Fixture.fromstring Scenario.json_loads esummary Scenario.webenv 0
           initial_state).
  - reflexivity.
  - reflexivity.
  - vm_compute; reflexivity.
  - vm_compute; reflexivity.
Defined.

Lemma X19_payload_without_uids_exits_witness :
  let d := JObj [("header", JObj [("type", JStr "esummary")])] in
  let json_loads := Fixture.json_loads_of [d] in
  let esummary := fun _ : SummaryParams => Fixture.ok d in
  let p := summary_params Scenario.webenv 0 in
  page_body Fixture.fromstring json_loads esummary Scenario.webenv 0
            initial_state
  = (mkState d [] [DumpData d] [p], Stop (Exit 1)).
Proof.
  intros d json_loads esummary p.
  apply (@X19_payload_without_uids_exits
           Fixture.fromstring json_loads esummary Scenario.webenv 0
           initial_state d).
  - reflexivity.
  - reflexivity.
  - vm_compute; reflexivity.
  - vm_compute; reflexivity.
  - reflexivity.
Defined.

Lemma X20_non_200_status_skips_refresh_witness :
  let esummary := fun _ : SummaryParams => mkResponse 503 "" in
  let st := mkState Fixture.page0 [] [Line header] [] in
  fetch_page Scenario.json_loads esummary Scenario.webenv 500 st
  = (sent st (summary_params Scenario.webenv 500), Next tt).
Proof.
  intros esummary st.
  destruct (@X20_non_200_status_skips_refresh
              Fixture.fromstring Scenario.json_loads esummary Scenario.webenv
              500 st) as [H _].
  - discriminate.
  - exact H.
Defined.

Lemma X21_bad_search_response_aborts_before_header_witness :
  let json_loads := Fixture.json_loads_of [Fixture.error_doc] in
  let esearch := fun _ : string => Fixture.ok Fixture.error_doc in
  main Fixture.fromstring json_loads esearch Scenario.two_pages
       "PRJNA000001" 5000
  = (initial_state, Stop (Uncaught KeyError)).
Proof.
  intros json_loads esearch.
  destruct (@X21_bad_search_response_aborts_before_header
              Fixture.fromstring json_loads esearch Scenario.two_pages
              "PRJNA000001" 5000) as [_ H].
  - reflexivity.
  - apply (H Fixture.error_doc KeyError).
    + vm_compute; reflexivity.
    + reflexivity.
Defined.

(** ** What a completed turn of the loop prints *)

Lemma mbind_next {A B} (m : M A) (k : A -> M B) (st st' : state) (b : B) :
  mbind m k st = (st', Next b) ->
  exists st1 a, m st = (st1, Next a) /\ k a st1 = (st', Next b).
Proof.
  unfold mbind. destruct (m st) as [st1 [a|s]]; [eauto | discriminate].
Qed.

Lemma printed_app (st : state) (l1 l2 : list string) :
  printed (printed st l1) l2 = printed st (l1 ++ l2).
Proof. unfold printed. simpl. now rewrite map_app, app_assoc. Qed.

Lemma print_all_next (es : list value) (st st' : state) :
  for_each print_experiment_csv es st = (st', Next tt) ->
  exists lss,
    Forall2 (fun e ls => rows_of e = Ok ls) es lss
    /\ st' = printed st (List.concat lss).
Proof.
  revert st. induction es as [|e es IH]; intros st; simpl.
  - intros [= <-]. exists []. split; [constructor|].
    simpl. now rewrite printed_nil.
  - intros H. apply mbind_next in H as (st1 & [] & H1 & H2).
    apply print_experiment_csv_next in H1 as (ls & Hls & ->).
    apply IH in H2 as (lss & Hlss & ->).
    exists (ls :: lss). split; [now constructor|].
    simpl. now rewrite printed_app.
Qed.

Section TurnFacts.

Variable fromstring : string -> option Element.
Variable json_loads : string -> option json.
Variable esummary : SummaryParams -> Response.

Lemma fetch_page_next (webenv : json) (retstart : Z) (st st1 : state) :
  fetch_page json_loads esummary webenv retstart st = (st1, Next tt) ->
  stdout st1 = stdout st /\ experiments st1 = experiments st.
Proof.
  unfold fetch_page. destruct (truthy webenv); [|now intros [= <-]].
  unfold mbind. simpl. destruct (_ && _); [|now intros [= <-]].
  destruct (json_loads _); [now intros [= <-] | discriminate].
Qed.

Lemma check_uids_next (st st1 : state) :
  check_uids st = (st1, Next tt) -> st1 = st.
Proof.
  unfold check_uids. unfold mbind at 1. simpl.
  destruct (_ <- _ ;; _) as [u|[]]; simpl; try discriminate.
  now intros [= <-].
Qed.

Lemma process_page_extends :
  extends experiments (process_page fromstring).
Proof.
  unfold process_page.
  apply extends_mbind; [apply keeps_extends, keeps_get_biosample_data|].
  intros data.
  apply extends_mbind; [apply keeps_extends, keeps_lift|]. intros uids.
  apply extends_for_each. intros uid. unfold process_uid.
  apply extends_mbind; [apply keeps_extends, keeps_lift|]. intros e.
  apply extends_mbind; [apply keeps_extends, keeps_lift|]. intros [|].
  - apply extends_append_experiment.
  - apply keeps_extends, keeps_ret.
Qed.

(** X23: a turn of the page loop that runs to its end prints the rows of
    every record kept so far, those kept in earlier turns included, in the
    order they were kept: the records kept before the turn are still there,
    followed by those of this turn, and what the turn adds to the output is
    the rows of all of them. *)
Theorem X23_a_turn_prints_all_kept_records
        (webenv : json) (retstart : Z) (st st' : state) :
  page_body fromstring json_loads esummary webenv retstart st
  = (st', Next tt) ->
  exists new lss,
    experiments st' = experiments st ++ new
    /\ Forall2 (fun e ls => rows_of e = Ok ls) (experiments st') lss
    /\ stdout st' = stdout st ++ map Line (List.concat lss).
Proof.
  unfold page_body. intros H.
  apply mbind_next in H as (st1 & [] & Hf & H).
  apply mbind_next in H as (st2 & [] & Hc & H).
  apply mbind_next in H as (st3 & [] & Hp & H).
  apply fetch_page_next in Hf as [Hout1 Hexp1].
  apply check_uids_next in Hc as ->.
  pose proof (process_page_keeps fromstring stdout
                (fun st e => eq_refl) st1) as Hout3.
  destruct (process_page_extends st1) as (new & Hexp3).
  rewrite Hp in Hout3, Hexp3. simpl in Hout3, Hexp3.
  unfold print_experiments in H. unfold mbind at 1 in H. simpl in H.
  apply print_all_next in H as (lss & Hlss & ->).
  exists new, lss. simpl. repeat split.
  - now rewrite Hexp3, Hexp1.
  - exact Hlss.
  - now rewrite Hout3, Hout1.
Qed.

End TurnFacts.

Lemma X23_a_turn_prints_all_kept_records_witness :
  let st := fst (page_body Fixture.fromstring Scenario.json_loads
                           Scenario.two_pages Scenario.webenv 0
                           (mkState JNull [] [Line header] [])) in
  let st' := fst (page_body Fixture.fromstring Scenario.json_loads
                            Scenario.two_pages Scenario.webenv 500 st) in
  stdout st = map Line [header; Scenario.line1]
  /\ exists new lss,
      experiments st' = experiments st ++ new
      /\ Forall2 (fun e ls => rows_of e = Ok ls) (experiments st') lss
      /\ stdout st' = stdout st ++ map Line (List.concat lss).
Proof.
  intros st st'. split; [vm_compute; reflexivity|].
  apply (@X23_a_turn_prints_all_kept_records
           Fixture.fromstring Scenario.json_loads Scenario.two_pages
           Scenario.webenv 500 st st').
  vm_compute. reflexivity.
Defined.

(** ** Whole turns and whole runs *)

Lemma print_all (es : list value) (lss : list (list string)) (st : state) :
  Forall2 (fun e ls => rows_of e = Ok ls) es lss ->
  for_each print_experiment_csv es st = (printed st (List.concat lss), Next tt).
Proof.
  intros H. revert st. induction H as [|e ls es lss He _ IH]; intros st; simpl.
  - now rewrite printed_nil.
  - unfold mbind at 1. rewrite (print_experiment_csv_rows _ st He).
    now rewrite IH, printed_app.
Qed.

Lemma intervals_single (M : Z) : (0 <= M < 500)%Z -> intervals M = [0%Z].
Proof.
  intros H. rewrite intervals_eq.
  replace ((M + 500) / 500)%Z with 1%Z; [reflexivity|].
  apply Z.div_unique with (r := M); lia.
Qed.

Section RunFacts.

Variable fromstring : string -> option Element.
Variable json_loads : string -> option json.
Variable esearch : string -> Response.
Variable esummary : SummaryParams -> Response.

Lemma check_uids_ok (uids : list json) (st : state) :
  (r <- jgetitem (biosample_data st) "result" ;; u <- jgetitem r "uids" ;;
   jiterate u) = Ok uids ->
  check_uids st = (st, Next tt).
Proof.
  intros Hu. unfold check_uids. unfold mbind at 1. simpl.
  destruct (jgetitem (biosample_data st) "result") as [r|]; simpl in *;
    [|discriminate].
  destruct (jgetitem r "uids") as [u|]; simpl in *; [reflexivity|discriminate].
Qed.

Lemma process_page_ok (uids : list json) (records : list dict) (st : state) :
  (r <- jgetitem (biosample_data st) "result" ;; u <- jgetitem r "uids" ;;
   jiterate u) = Ok uids ->
  Forall2 (fun uid e => assemble fromstring (biosample_data st) uid = Ok e)
          uids records ->
  Forall (fun e => exists i, dict_get e "Instrument" = Some (VDict i)) records ->
  process_page fromstring st = (kept st (filter has_illumina records), Next tt).
Proof.
  intros Hu Ha Hi. unfold process_page. unfold mbind at 1. simpl.
  unfold mbind at 1. rewrite Hu. simpl. now apply process_uids.
Qed.

(** The rest of a turn once the payload is settled, for a payload whose
    records can be assembled and have an [Instrument] mapping. *)
Lemma turn_on_payload (uids : list json) (records : list dict) (st : state) :
  (r <- jgetitem (biosample_data st) "result" ;; u <- jgetitem r "uids" ;;
   jiterate u) = Ok uids ->
  Forall2 (fun uid e => assemble fromstring (biosample_data st) uid = Ok e)
          uids records ->
  Forall (fun e => exists i, dict_get e "Instrument" = Some (VDict i)) records ->
  (check_uids ;;; process_page fromstring ;;; print_experiments) st
  = for_each print_experiment_csv
             (experiments st ++ map VDict (filter has_illumina records))
             (kept st (filter has_illumina records)).
Proof.
  intros Hu Ha Hi.
  unfold mbind at 1. rewrite (@check_uids_ok uids st Hu).
  unfold mbind at 1. rewrite (@process_page_ok uids records st Hu Ha Hi). reflexivity.
Qed.

(** X24: a page whose response holds the error marker is not skipped: the
    payload of the page before is assembled and filtered a second time, so
    the records it yields are kept once more, after those already kept,
    and the rows of all of them are printed. *)
Theorem X24_error_page_keeps_the_previous_records_again
        (webenv : json) (retstart : Z) (uids : list json)
        (records : list dict) (st : state) :
  truthy webenv = true ->
  re_search error_marker (body (esummary (summary_params webenv retstart)))
  = true ->
  (r <- jgetitem (biosample_data st) "result" ;; u <- jgetitem r "uids" ;;
   jiterate u) = Ok uids ->
  Forall2 (fun uid e => assemble fromstring (biosample_data st) uid = Ok e)
          uids records ->
  Forall (fun e => exists i, dict_get e "Instrument" = Some (VDict i)) records ->
  let st1 := kept (sent st (summary_params webenv retstart))
                  (filter has_illumina records) in
  page_body fromstring json_loads esummary webenv retstart st
  = for_each print_experiment_csv (experiments st1) st1
  /\ experiments st1
     = experiments st ++ map VDict (filter has_illumina records).
Proof.
  intros Hw Hm Hu Ha Hi st1. split; [|reflexivity].
  unfold page_body. unfold mbind at 1.
  rewrite (fetch_page_marker json_loads esummary webenv retstart st Hm), Hw.
  change (send (summary_params webenv retstart) st)
    with (sent st (summary_params webenv retstart), Next tt).
  cbv iota beta.
  apply (@turn_on_payload uids records
                          (sent st (summary_params webenv retstart)));
    assumption.
Qed.

(** X25: a run of a single page (0 <= M < 500) that meets no error prints
    the header and then, in the order of the page, the rows of exactly the
    records whose [Instrument] mapping has the key [ILLUMINA]; it sends one
    request, with [retstart = 0], and ends normally. *)
Theorem X25_single_page_run
        (project_id : string) (M : Z) (webenv d : json)
        (uids : list json) (records : list dict) (lss : list (list string)) :
  let p := summary_params webenv 0 in
  (0 <= M < 500)%Z ->
  search json_loads esearch project_id = Ok webenv ->
  truthy webenv = true ->
  status_code (esummary p) = 200%Z ->
  re_search error_marker (body (esummary p)) = false ->
  json_loads (body (esummary p)) = Some d ->
  (r <- jgetitem d "result" ;; u <- jgetitem r "uids" ;; jiterate u) = Ok uids ->
  Forall2 (fun uid e => assemble fromstring d uid = Ok e) uids records ->
  Forall (fun e => exists i, dict_get e "Instrument" = Some (VDict i)) records ->
  Forall2 (fun e ls => rows_of (VDict e) = Ok ls)
          (filter has_illumina records) lss ->
  main fromstring json_loads esearch esummary project_id M
  = (mkState d (map VDict (filter has_illumina records))
             (Line header :: map Line (List.concat lss)) [p],
     Next tt).
Proof.
  intros p HM Hs Hw H200 Hm Hj Hu Ha Hi Hrows.
  unfold main, main_M, mbind. rewrite Hs. simpl.
  rewrite (intervals_single HM). simpl. unfold mbind at 1.
  unfold page_body. unfold mbind at 1.
  rewrite (fetch_page_refresh json_loads esummary webenv 0
                              (mkState JNull [] [Line header] [])
                              Hw H200 Hm Hj).
  simpl. fold p.
  rewrite (@turn_on_payload uids records (mkState d [] [Line header] [p]));
    [|assumption|assumption|assumption].
  simpl.
  rewrite (@print_all (map VDict (filter has_illumina records)) lss).
  - reflexivity.
  - clear -Hrows. induction Hrows; constructor; assumption.
Qed.

End RunFacts.

Lemma X24_error_page_keeps_the_previous_records_again_witness :
  let st := fst (page_body Fixture.fromstring Scenario.json_loads
                           Scenario.error_in_the_middle Scenario.webenv 0
                           (mkState JNull [] [Line header] [])) in
  let st' := fst (page_body Fixture.fromstring Scenario.json_loads
                            Scenario.error_in_the_middle Scenario.webenv 500
                            st) in
  experiments st = [VDict Scenario.record1]
  /\ experiments st' = [VDict Scenario.record1; VDict Scenario.record1]
  /\ stdout st'
     = map Line [header; Scenario.line1; Scenario.line1; Scenario.line1].
Proof.
  intros st st'. split; [vm_compute; reflexivity|].
  destruct (@X24_error_page_keeps_the_previous_records_again
              Fixture.fromstring Scenario.json_loads
              Scenario.error_in_the_middle Scenario.webenv 500
              [JStr "101"] [Scenario.record1] st) as [H _].
  - reflexivity.
  - vm_compute; reflexivity.
  - vm_compute; reflexivity.
  - repeat constructor; vm_compute; reflexivity.
  - repeat constructor; eexists; vm_compute; reflexivity.
  - unfold st'. rewrite H. vm_compute. split; reflexivity.
Defined.

Lemma X25_single_page_run_witness :
  main Fixture.fromstring Scenario.json_loads Scenario.esearch
       Scenario.mixed_page "PRJNA000001" 499
  = (mkState Fixture.page_mixed [VDict Scenario.record1]
             [Line header; Line Scenario.line1]
             [summary_params Scenario.webenv 0],
     Next tt).
Proof.
  apply (@X25_single_page_run
           Fixture.fromstring Scenario.json_loads Scenario.esearch
           Scenario.mixed_page "PRJNA000001" 499 Scenario.webenv
           Fixture.page_mixed [JStr "101"; JStr "103"]
           [Scenario.record1; Scenario.record3] [[Scenario.line1]]).
  - lia.
  - vm_compute; reflexivity.
  - reflexivity.
  - reflexivity.
  - vm_compute; reflexivity.
  - vm_compute; reflexivity.
  - vm_compute; reflexivity.
  - repeat constructor; vm_compute; reflexivity.
  - repeat constructor; eexists; vm_compute; reflexivity.
  - repeat constructor; vm_compute; reflexivity.
Defined.
